(** * quota-export.py: startup, validation and serve life cycle

    A shallow embedding of [src/quota-export.py] (the exporter's entry
    point) and the properties of its configuration loading, preflight
    validation, logging set-up and runtime start-up.

    Python objects are modelled as a tree of values, the calls into the
    operating system and into the external libraries (socket, yaml,
    wekalib, collector, prometheus_client, logging.handlers) as fields of
    an environment record, and the observable behaviour of a run as the
    chronological list of the calls and log records it makes, together
    with the way the run ends. *)

From Stdlib Require Import String List ZArith Lia Bool.
From stdpp Require Import gmap strings.
Import ListNotations.
Local Open Scope string_scope.
Local Open Scope Z_scope.
Local Open Scope list_scope.
Set Warnings "-register-all".

(** ** Python values

    The values a YAML document of the configuration schema loads to:
    [None], booleans, integers, strings, lists and string-keyed dicts.
    A dict is kept as an association list in insertion order, because
    Python iterates a dict in that order (line 41 iterates whatever
    [cluster.hosts] holds). The document is a tree: two stanzas do not
    share one dict object. *)

Inductive value : Type :=
| VNone
| VBool (b : bool)
| VInt (z : Z)
| VStr (s : string)
| VList (l : list value)
| VDict (d : list (string * value)).

Abbreviation dict := (list (string * value)).

(** [d.get(k)], [k in d] and [d[k] = v] on the association list. *)
Fixpoint dict_get (d : dict) (k : string) : option value :=
  match d with
  | [] => None
  | (k', v) :: d' => if String.eqb k' k then Some v else dict_get d' k
  end.

Definition dict_mem (d : dict) (k : string) : bool :=
  match dict_get d k with Some _ => true | None => false end.

Fixpoint dict_set (d : dict) (k : string) (v : value) : dict :=
  match d with
  | [] => [(k, v)]
  | (k', v') :: d' =>
      if String.eqb k' k then (k', v) :: d' else (k', v') :: dict_set d' k v
  end.

(** ** Exceptions

    The subclasses of [Exception] that the program can meet. The two
    wekalib classes are siblings: neither is a subclass of the other, so
    an [SSLError] is not caught by [except wekalib.exceptions.HTTPError]. *)

Inductive exception : Type :=
| KeyError (key : string)
| TypeError
| ValueError
| AttributeError
| gaierror (msg : string)              (* socket.gaierror *)
| HTTPError (code : Z) (msg : string)  (* wekalib.exceptions.HTTPError *)
| SSLError (msg : string)              (* wekalib.exceptions.SSLError *)
| OtherError (cls msg : string).       (* any other subclass of Exception *)

(** How a computation ends: it returns, an exception propagates out of
    it, [sys.exit] was called (SystemExit is not an [Exception], no
    handler of this program catches it), or it reached the endless
    [while True: time.sleep(30)] of line 125. *)

Inductive result (A : Type) : Type :=
| Ret (a : A)
| Raise (e : exception)
| Exit (status : Z)
| Forever.

Arguments Ret {A} a.
Arguments Raise {A} e.
Arguments Exit {A} status.
Arguments Forever {A}.

(** ** Subscripts, membership and iteration on values *)

(** [v[k]] for a string key [k]. *)
Definition py_getitem (v : value) (k : string) : exception + value :=
  match v with
  | VDict d => match dict_get d k with
               | Some x => inr x
               | None => inl (KeyError k)
               end
  | _ => inl TypeError
  end.

(** [v[k] = x] for a string key [k]: only a dict accepts it. *)
Definition py_setitem (v : value) (k : string) (x : value) : exception + value :=
  match v with
  | VDict d => inr (VDict (dict_set d k x))
  | _ => inl TypeError
  end.

Fixpoint is_substring (k s : string) : bool :=
  String.prefix k s
  || match s with
     | EmptyString => false
     | String _ s' => is_substring k s'
     end.

Definition is_str (k : string) (v : value) : bool :=
  match v with
  | VStr s => String.eqb s k
  | _ => false
  end.

(** [k in v] for a string [k]: key of a dict, element of a list,
    substring of a string; the other values are not containers. *)
Definition py_contains (v : value) (k : string) : exception + bool :=
  match v with
  | VDict d => inr (dict_mem d k)
  | VList l => inr (existsb (is_str k) l)
  | VStr s => inr (is_substring k s)
  | _ => inl TypeError
  end.

Fixpoint chars (s : string) : list value :=
  match s with
  | EmptyString => []
  | String c s' => VStr (String c EmptyString) :: chars s'
  end.

(** The items [for x in v] visits. *)
Definition py_iter (v : value) : exception + list value :=
  match v with
  | VList l => inr l
  | VStr s => inr (chars s)
  | VDict d => inr (map (fun kv => VStr (fst kv)) d)
  | _ => inl TypeError
  end.

(** ** Log records and the trace of a run *)

Inductive level : Type := DEBUG | INFO | WARNING | ERROR | CRITICAL.

(** A message is the f-string it is built by: literal text and the
    formatted objects, in order. [FmtTraceback] is
    [traceback.format_exc()]. *)
Inductive frag : Type :=
| Lit (s : string)
| Fmt (v : value)
| FmtExc (e : exception)
| FmtTraceback.

(** The objects the external constructors hand back are opaque. *)
Definition cluster_obj : Type := nat.
Definition collector : Type := nat.

(** The arguments of the [WekaCluster(...)] call of lines 87-92. *)
Record connect_args : Type := {
  arg_hosts : value;
  arg_auth_token_file : value;
  arg_force_https : value;
  arg_verify_cert : value;
  arg_backends_only : value;
  arg_timeout : value;
  arg_mgmt_port : value
}.

Inductive event : Type :=
| EvSignalHandling                               (* signal_handling() *)
| EvPrint (s : string)                           (* print(s) *)
| EvLog (lvl : level) (msg : list frag)          (* log.<lvl>(msg) *)
| EvPathExists (path : string)                   (* os.path.exists(path) *)
| EvOpen (path : string)                         (* open(path) *)
| EvYamlLoad (full_loader : bool)                (* yaml.load(f[, Loader]) *)
| EvGetHostByName (host : value)                 (* socket.gethostbyname(host) *)
| EvWekaCluster (a : connect_args)               (* WekaCluster(...) *)
| EvCollector (config : value) (c : cluster_obj) (* Collector(config, cluster_obj) *)
| EvStartHttpServer (port : Z)                   (* prometheus_client.start_http_server *)
| EvRegister (c : collector)                     (* REGISTRY.register(collector) *)
| EvSysLogHandler (addr : string).               (* logging.handlers.SysLogHandler(addr) *)

(** ** The logging configuration

    The state [configure_logging] writes: the level and the handlers of
    the root logger and the level of each named logger. *)

Inductive handler : Type :=
| StreamHandler (fmt : string)
| SysLogHandler (addr fmt : string).

Record logging_state : Type := {
  root_level : level;
  root_handlers : list handler;
  logger_levels : gmap string level
}.

(** A fresh interpreter: root logger at WARNING, no handler, no named
    logger configured. *)
Definition logging_init : logging_state :=
  {| root_level := WARNING; root_handlers := []; logger_levels := ∅ |}.

(** ** The environment

    What the operating system and the libraries answer. [None] in an
    [option exception] means the call returned normally. *)

Record world : Type := {
  path_exists : string -> bool;                          (* os.path.exists *)
  open_file : string -> exception + string;              (* open(): the file's text *)
  yaml_load_FullLoader : string -> exception + value;    (* yaml.load(f, Loader=yaml.FullLoader) *)
  yaml_load_default : string -> exception + value;       (* yaml.load(f) *)
  gethostbyname : value -> option exception;             (* socket.gethostbyname *)
  WekaCluster : connect_args -> exception + cluster_obj;
  Collector : value -> cluster_obj -> exception + collector;
  int_of_str : string -> option Z;                       (* int() on a str *)
  start_http_server : Z -> option exception;
  registry_register : collector -> option exception;     (* REGISTRY.register *)
  platform_platform : string;                            (* platform.platform() *)
  SysLogHandler_init : string -> option exception        (* SysLogHandler(addr) *)
}.

(** ** The monad of the embedding

    A computation reads and writes the logging configuration, appends to
    the trace, and ends as a [result]. *)

Definition M (A : Type) : Type :=
  logging_state -> result A * logging_state * list event.

Definition ret {A} (a : A) : M A := fun s => (Ret a, s, []).

Definition bind {A B} (m : M A) (f : A -> M B) : M B :=
  fun s =>
    match m s with
    | (Ret a, s1, t1) =>
        match f a s1 with
        | (r, s2, t2) => (r, s2, t1 ++ t2)
        end
    | (Raise e, s1, t1) => (Raise e, s1, t1)
    | (Exit n, s1, t1) => (Exit n, s1, t1)
    | (Forever, s1, t1) => (Forever, s1, t1)
    end.

Notation "'do' x <- m ; k" := (bind m (fun x => k))
  (at level 10, x name, m at level 100, k at level 200).

Definition raise {A} (e : exception) : M A := fun s => (Raise e, s, []).
Definition sys_exit {A} (status : Z) : M A := fun s => (Exit status, s, []).
Definition forever {A} : M A := fun s => (Forever, s, []).
Definition emit (ev : event) : M unit := fun s => (Ret tt, s, [ev]).
Definition log (lvl : level) (msg : list frag) : M unit := emit (EvLog lvl msg).

Definition lift {A} (x : exception + A) : M A :=
  match x with
  | inr a => ret a
  | inl e => raise e
  end.

Definition lift_call (x : option exception) : M unit :=
  match x with
  | None => ret tt
  | Some e => raise e
  end.

(** [try: m except Exception as exc: ...]: the handler's choice is left
    to the caller, which receives the exception as a value. *)
Definition attempt {A} (m : M A) : M (exception + A) :=
  fun s =>
    match m s with
    | (Ret a, s1, t1) => (Ret (inr a), s1, t1)
    | (Raise e, s1, t1) => (Ret (inl e), s1, t1)
    | (Exit n, s1, t1) => (Exit n, s1, t1)
    | (Forever, s1, t1) => (Forever, s1, t1)
    end.

Definition get_state : M logging_state := fun s => (Ret s, s, []).
Definition put_state (s' : logging_state) : M unit := fun _ => (Ret tt, s', []).

(** ** The program *)

Definition VERSION : string := "2025-06-25".

Section Program.

Variable w : world.

(** *** [_load_config] (lines 24-36)

    [open] failing re-raises. An [AttributeError] from the first
    [yaml.load] falls back to [yaml.load(f)], whose own exceptions
    propagate unlogged; any other exception is logged and re-raised. *)

Definition _load_config (inputfile : string) : M value :=
  do _ <- emit (EvOpen inputfile);
  do f <- lift (open_file w inputfile);
  do _ <- emit (EvYamlLoad true);
  match yaml_load_FullLoader w f with
  | inr config => ret config
  | inl AttributeError =>
      do _ <- emit (EvYamlLoad false);
      lift (yaml_load_default w f)
  | inl exc =>
      do _ <- log ERROR [Lit "Error reading config file: "; FmtExc exc];
      raise exc
  end.

(** *** [prom_client], hostname resolution (lines 40-49) *)

Definition msg_unresolvable (host : value) : list frag :=
  [Lit "Hostname "; Fmt host; Lit " not resolvable - is it in /etc/hosts or DNS?"].

Definition resolve_host (host : value) (error : bool) : M bool :=
  do _ <- emit (EvGetHostByName host);
  match gethostbyname w host with
  | None => ret error
  | Some (gaierror _) =>
      do _ <- log CRITICAL (msg_unresolvable host);
      ret true
  | Some exc =>
      do _ <- log CRITICAL [FmtExc exc];
      ret true
  end.

Fixpoint resolve_hosts (hosts : list value) (error : bool) : M bool :=
  match hosts with
  | [] => ret error
  | host :: rest =>
      do error' <- resolve_host host error;
      resolve_hosts rest error'
  end.

(** [config[a][b]] *)
Definition get2 (config : value) (a b : string) : M value :=
  do x <- lift (py_getitem config a);
  lift (py_getitem x b).

(** [if key not in config[stanza]: config[stanza][key] = dflt]; the
    in-place update of the stanza is written back into the tree. *)
Definition default_key (stanza key : string) (dflt : value) (config : value)
  : M value :=
  do sec <- lift (py_getitem config stanza);
  do present <- lift (py_contains sec key);
  if present then ret config
  else
    do sec0 <- lift (py_getitem config stanza);
    do sec' <- lift (py_setitem sec0 key dflt);
    lift (py_setitem config stanza sec').

(** Lines 62-82. *)
Definition apply_defaults (config : value) : M value :=
  do config <- default_key "cluster" "force_https" (VBool false) config;
  do config <- default_key "cluster" "filesystems" VNone config;
  do config <- default_key "cluster" "verify_cert" (VBool true) config;
  do config <- default_key "cluster" "mgmt_port" (VInt 14000) config;
  do config <- default_key "exporter" "timeout" (VInt 10) config;
  do config <- default_key "exporter" "backends_only" (VBool true) config;
  default_key "exporter" "exceeded_only" (VBool true) config.

Definition msg_resolve_errors : list frag :=
  [Lit "Errors resolving hostnames given.  Please ensure they are in /etc/hosts or DNS and are resolvable"].
Definition msg_cluster_missing : list frag :=
  [Lit "'cluster:' stanza missing from .yml file - version mismatch between .yml and exporter version?"].
Definition msg_exporter_missing : list frag :=
  [Lit "'exporter:' stanza missing from .yml file - version mismatch between .yml and exporter version?"].

(** Lines 40-82: the validation part of [prom_client]; it hands the
    defaulted configuration to the rest of the function. *)
Definition preflight (config : value) : M value :=
  do cluster <- lift (py_getitem config "cluster");
  do hosts <- lift (py_getitem cluster "hosts");
  do items <- lift (py_iter hosts);
  do error <- resolve_hosts items false;
  if error then
    do _ <- log CRITICAL msg_resolve_errors;
    sys_exit 1
  else
    do has_cluster <- lift (py_contains config "cluster");
    if negb has_cluster then
      do _ <- log ERROR msg_cluster_missing;
      sys_exit 1
    else
      do has_exporter <- lift (py_contains config "exporter");
      if negb has_exporter then
        do _ <- log ERROR msg_exporter_missing;
        sys_exit 1
      else apply_defaults config.

(** *** [prom_client], the runtime (lines 84-126) *)

(** [int(v)]; how [int] reads a string is the environment's. *)
Definition py_int (v : value) : exception + Z :=
  match v with
  | VInt z => inr z
  | VBool b => inr (if b then 1 else 0)
  | VStr s => match int_of_str w s with
              | Some z => inr z
              | None => inl ValueError
              end
  | _ => inl TypeError
  end.

(** The body of the [try] of lines 86-92: the arguments are evaluated
    left to right, then the constructor is called. *)
Definition connect (config : value) : M cluster_obj :=
  do hosts <- get2 config "cluster" "hosts";
  do auth_token_file <- get2 config "cluster" "auth_token_file";
  do force_https <- get2 config "cluster" "force_https";
  do verify_cert <- get2 config "cluster" "verify_cert";
  do backends_only <- get2 config "exporter" "backends_only";
  do timeout <- get2 config "exporter" "timeout";
  do mgmt_port <- get2 config "cluster" "mgmt_port";
  let a := {| arg_hosts := hosts; arg_auth_token_file := auth_token_file;
              arg_force_https := force_https; arg_verify_cert := verify_cert;
              arg_backends_only := backends_only; arg_timeout := timeout;
              arg_mgmt_port := mgmt_port |} in
  do _ <- emit (EvWekaCluster a);
  lift (WekaCluster w a).

Definition msg_permission : list frag :=
  [Lit "Cluster returned permission error - is the userid level ReadOnly or above?"].
Definition msg_ssl_1 : list frag :=
  [Lit "SSL Error: Only weka v3.10 and above support https, and force_https is set in config file."].
Definition msg_ssl_2 : list frag :=
  [Lit "SSL Error: Is this cluster < v3.10? Please verify configuration"].

(** The body of the [try] of lines 116-117. *)
Definition start_server (config : value) : M unit :=
  do port <- get2 config "exporter" "listen_port";
  do n <- lift (py_int port);
  do _ <- emit (EvStartHttpServer n);
  lift_call (start_http_server w n).

(** The [except] clauses of lines 93-107, tried in that order. The
    value returned is [None]: each of them ends in a bare [return]. *)
Definition on_connect_error (exc : exception) : M (option Z) :=
  match exc with
  | HTTPError code _ =>
      if code =? 403 then
        do _ <- log CRITICAL msg_permission;
        ret None
      else
        do _ <- log CRITICAL
          [Lit "Cluster returned HTTP error "; FmtExc exc; Lit "; aborting"];
        ret None
  | SSLError _ =>
      do _ <- log CRITICAL msg_ssl_1;
      do _ <- log CRITICAL msg_ssl_2;
      do _ <- log CRITICAL [Lit "Error is "; FmtExc exc];
      ret None
  | _ =>
      do _ <- log CRITICAL [Lit "Unable to create Weka Cluster: "; FmtExc exc];
      do _ <- log CRITICAL [FmtTraceback];
      ret None
  end.

Definition msg_server_failed (port : value) (exc : exception) : list frag :=
  [Lit "Unable to start http server on port "; Fmt port; Lit ": "; FmtExc exc].

(** Lines 110-126, with the cluster object in hand. [return 1] is
    [Some 1]. *)
Definition serve (config : value) (cluster : cluster_obj) : M (option Z) :=
  do _ <- emit (EvCollector config cluster);
  do coll <- lift (Collector w config cluster);
  do port <- get2 config "exporter" "listen_port";
  do _ <- log INFO [Lit "starting http server on port "; Fmt port];
  do r <- attempt (start_server config);
  match r with
  | inl exc =>
      do port <- get2 config "exporter" "listen_port";
      do _ <- log CRITICAL (msg_server_failed port exc);
      ret (Some 1)
  | inr _ =>
      do _ <- emit (EvRegister coll);
      do _ <- lift_call (registry_register w coll);
      forever
  end.

Definition msg_timeout (timeout : value) : list frag :=
  [Lit "Timeout set to "; Fmt timeout; Lit " secs"].

(** Lines 84-126. *)
Definition runtime (config : value) : M (option Z) :=
  do timeout <- get2 config "exporter" "timeout";
  do _ <- log INFO (msg_timeout timeout);
  do r <- attempt (connect config);
  match r with
  | inl exc => on_connect_error exc
  | inr cluster => serve config cluster
  end.

Definition prom_client (config : value) : M (option Z) :=
  do config <- preflight config;
  runtime config.

(** *** [configure_logging] (lines 129-184) *)

Definition fmt_message : string := "%(message)s".
Definition fmt_level : string := "%(levelname)s:%(message)s".
Definition fmt_source : string :=
  "%(filename)s:%(lineno)s:%(funcName)s():%(levelname)s:%(message)s".
Definition fmt_process : string :=
  "%(process)s:%(filename)s:%(lineno)s:%(funcName)s():%(levelname)s:%(message)s".

Record log_settings : Type := {
  loglevel : level;
  libloglevel : level;
  console_format : string;
  syslog_format : string
}.

(** Lines 130-152: the four locals after the [if] chain. A branch that
    does not assign [libloglevel] leaves it at its initial ERROR. *)
Definition settings_for (verbosity : Z) : log_settings :=
  let loglevel0 := INFO in
  let libloglevel0 := ERROR in
  let console_format0 := fmt_message in
  let syslog_format0 := fmt_process in
  if verbosity =? 1 then
    {| loglevel := INFO; libloglevel := INFO;
       console_format := fmt_level; syslog_format := fmt_process |}
  else if verbosity =? 2 then
    {| loglevel := DEBUG; libloglevel := libloglevel0;
       console_format := fmt_source; syslog_format := fmt_process |}
  else if verbosity >? 2 then
    {| loglevel := DEBUG; libloglevel := DEBUG;
       console_format := fmt_source; syslog_format := fmt_process |}
  else
    {| loglevel := loglevel0; libloglevel := libloglevel0;
       console_format := console_format0; syslog_format := syslog_format0 |}.

Definition add_handler (h : handler) : M unit :=
  do s <- get_state;
  put_state {| root_level := root_level s;
               root_handlers := root_handlers s ++ [h];
               logger_levels := logger_levels s |}.

Definition set_root_level (l : level) : M unit :=
  do s <- get_state;
  put_state {| root_level := l;
               root_handlers := root_handlers s;
               logger_levels := logger_levels s |}.

(** [logging.getLogger(name).setLevel(l)] *)
Definition set_logger_level (name : string) (l : level) : M unit :=
  do s <- get_state;
  put_state {| root_level := root_level s;
               root_handlers := root_handlers s;
               logger_levels := <[name := l]> (logger_levels s) |}.

(** Lines 163-166: where the syslog socket is. *)
Definition syslogaddr : string :=
  if String.eqb (substring 0%nat 5%nat (platform_platform w)) "macOS"
  then "/var/run/syslog" else "/dev/log".

(** Lines 160-172. The handler's constructor connects to the socket and
    raises when it cannot; nothing here catches that. *)
Definition attach_syslog (fmt : string) : M unit :=
  do _ <- log INFO [Lit "setting syslog on "; Fmt (VStr (platform_platform w))];
  do _ <- emit (EvSysLogHandler syslogaddr);
  do _ <- lift_call (SysLogHandler_init w syslogaddr);
  add_handler (SysLogHandler syslogaddr fmt).

Definition configure_logging (verbosity : Z) (disable_syslog : bool) : M unit :=
  let c := settings_for verbosity in
  do _ <- add_handler (StreamHandler (console_format c));
  do _ <- (if negb disable_syslog then attach_syslog (syslog_format c)
           else ret tt);
  do _ <- set_root_level (loglevel c);
  do _ <- set_logger_level "wekalib" ERROR;
  do _ <- set_logger_level "wekalib.wekaapi" (libloglevel c);
  do _ <- set_logger_level "wekalib.wekacluster" (libloglevel c);
  do _ <- set_logger_level "wekalib.sthreads" ERROR;
  do _ <- set_logger_level "urllib3" ERROR;
  set_logger_level "collector" (loglevel c).

Definition msg_no_configfile (path : string) : list frag :=
  [Lit "Required configfile '"; Fmt (VStr path); Lit "' does not exist"].

Definition msg_load_failed (path : string) (exc : exception) : list frag :=
  [Lit "Error loading config file '"; Fmt (VStr path); Lit "': "; FmtExc exc].

(** *** [main] (lines 186-215)

    [args] is what [parser.parse_args()] returned, with [sys.argv[0]]. *)

Record args : Type := {
  argv0 : string;
  configfile : string;
  no_syslog : bool;
  verbosity : Z;
  version : bool
}.

Definition main (a : args) : M unit :=
  do _ <- emit EvSignalHandling;
  if version a then
    do _ <- emit (EvPrint (argv0 a ++ " version " ++ VERSION)%string);
    sys_exit 0
  else
    do _ <- configure_logging (verbosity a) (no_syslog a);
    do _ <- emit (EvPathExists (configfile a));
    if negb (path_exists w (configfile a)) then
      do _ <- log CRITICAL (msg_no_configfile (configfile a));
      sys_exit 1
    else
      do _ <- log DEBUG [Lit "loading config file"];
      do r <- attempt (_load_config (configfile a));
      match r with
      | inl exc =>
          do _ <- log CRITICAL (msg_load_failed (configfile a) exc);
          ret tt
      | inr config =>
          do _ <- log DEBUG [Lit "config file loaded"];
          do _ <- prom_client config;
          ret tt
      end.

End Program.

(** The status the interpreter exits with: 0 when [main] returns, the
    argument of [sys.exit], 1 for an exception nobody caught. A run that
    serves forever has none. *)
Definition exit_status {A} (r : result A) : option Z :=
  match r with
  | Ret _ => Some 0
  | Raise _ => Some 1
  | Exit n => Some n
  | Forever => None
  end.

(** The pieces of what a computation yields from a logging state. *)
Definition res_of {A} (x : result A * logging_state * list event) : result A :=
  fst (fst x).
Definition state_of {A} (x : result A * logging_state * list event)
  : logging_state := snd (fst x).
Definition trace_of {A} (x : result A * logging_state * list event)
  : list event := snd x.

(** * Definitions used in the statements

    Closed forms of what the code above computes, each proved equal to
    the code below, and the concrete environments and configurations the
    example runs use. *)

(** A computation that leaves nothing in the trace, however it ends. *)
Definition silent {A} (m : M A) : Prop := forall s, trace_of (m s) = [].

(** ** Hostname resolution *)

(** What one pass of the loop of lines 41-49 leaves in the trace for a
    host, and whether it sets [error]. *)
Definition resolve_events (w : world) (host : value) : list event :=
  EvGetHostByName host ::
  match gethostbyname w host with
  | None => []
  | Some (gaierror _) => [EvLog CRITICAL (msg_unresolvable host)]
  | Some exc => [EvLog CRITICAL [FmtExc exc]]
  end.

Definition failed (w : world) (host : value) : bool :=
  match gethostbyname w host with
  | None => false
  | Some _ => true
  end.


(** The hosts a trace shows [socket.gethostbyname] was called on. *)
Definition resolved_hosts (t : list event) : list value :=
  flat_map (fun ev => match ev with EvGetHostByName h => [h] | _ => [] end) t.

(** ** Defaulting *)

(** The stanza after [if key not in stanza: stanza[key] = dflt]. *)
Definition with_default (sec : dict) (key : string) (dflt : value) : dict :=
  if dict_mem sec key then sec else dict_set sec key dflt.

(** The two stanzas after lines 62-72 and 75-82. *)
Definition cluster_defaulted (c : dict) : dict :=
  with_default
    (with_default
       (with_default (with_default c "force_https" (VBool false))
          "filesystems" VNone)
       "verify_cert" (VBool true))
    "mgmt_port" (VInt 14000).

Definition exporter_defaulted (e : dict) : dict :=
  with_default
    (with_default (with_default e "timeout" (VInt 10))
       "backends_only" (VBool true))
    "exceeded_only" (VBool true).

(** The whole configuration after validation. *)
Definition validated (top c e : dict) : value :=
  VDict (dict_set (dict_set top "cluster" (VDict (cluster_defaulted c)))
           "exporter" (VDict (exporter_defaulted e))).

(** The defaults as the data model lists them. *)
Definition cluster_defaults : dict :=
  [("force_https", VBool false); ("filesystems", VNone);
   ("verify_cert", VBool true); ("mgmt_port", VInt 14000)].

Definition exporter_defaults : dict :=
  [("timeout", VInt 10); ("backends_only", VBool true);
   ("exceeded_only", VBool true)].

(** An explicit value wins over the default. *)
Definition or_default (explicit dflt : option value) : option value :=
  match explicit with
  | Some v => Some v
  | None => dflt
  end.

(** ** The runtime *)

Definition lookup_or (d : dict) (k : string) (dflt : value) : value :=
  match dict_get d k with
  | Some v => v
  | None => dflt
  end.

(** The arguments [WekaCluster] receives from a validated configuration. *)
Definition connect_args_of (c e : dict) (hosts tok : value) : connect_args :=
  {| arg_hosts := hosts;
     arg_auth_token_file := tok;
     arg_force_https := lookup_or c "force_https" (VBool false);
     arg_verify_cert := lookup_or c "verify_cert" (VBool true);
     arg_backends_only := lookup_or e "backends_only" (VBool true);
     arg_timeout := lookup_or e "timeout" (VInt 10);
     arg_mgmt_port := lookup_or c "mgmt_port" (VInt 14000) |}.

(** ** Logging set-up *)

(** The logging state [configure_logging] leaves behind. *)
Definition configured (w : world) (verbosity : Z) (disable_syslog : bool)
    (s : logging_state) : logging_state :=
  let c := settings_for verbosity in
  {| root_level := loglevel c;
     root_handlers :=
       root_handlers s
       ++ StreamHandler (console_format c)
       :: (if disable_syslog then []
           else [SysLogHandler (syslogaddr w) (syslog_format c)]);
     logger_levels :=
       <["collector" := loglevel c]>
         (<["urllib3" := ERROR]>
            (<["wekalib.sthreads" := ERROR]>
               (<["wekalib.wekacluster" := libloglevel c]>
                  (<["wekalib.wekaapi" := libloglevel c]>
                     (<["wekalib" := ERROR]> (logger_levels s)))))) |}.

Definition syslog_events (w : world) (disable_syslog : bool) : list event :=
  if disable_syslog then []
  else [EvLog INFO [Lit "setting syslog on "; Fmt (VStr (platform_platform w))];
        EvSysLogHandler (syslogaddr w)].

(** ** Loading the configuration file *)

(** What the YAML library makes of a file's text, fallback included. *)
Definition yaml_outcome (w : world) (f : string) : exception + value :=
  match yaml_load_FullLoader w f with
  | inl AttributeError => yaml_load_default w f
  | r => r
  end.

Definition load_outcome (w : world) (path : string) : exception + value :=
  match open_file w path with
  | inl exc => inl exc
  | inr f => yaml_outcome w f
  end.

Definition as_result {A} (x : exception + A) : result A :=
  match x with
  | inl exc => Raise exc
  | inr a => Ret a
  end.

(** ** Concrete environments and configurations *)

(** An environment with the answers that vary from run to run as
    arguments: hostname resolution, what the YAML library returns, the
    cluster connection and the start of the HTTP server. *)
Definition example_world (resolve : value -> option exception)
    (yaml : exception + value) (conn : exception + cluster_obj)
    (start : option exception) : world :=
  {| path_exists := fun _ => true;
     open_file := fun _ => inr "cluster: ...";
     yaml_load_FullLoader := fun _ => yaml;
     yaml_load_default := fun _ => yaml;
     gethostbyname := resolve;
     WekaCluster := fun _ => conn;
     Collector := fun _ _ => inr 7%nat;
     int_of_str := fun _ => None;
     start_http_server := fun _ => start;
     registry_register := fun _ => None;
     platform_platform := "Linux-6.1.0-x86_64-with-glibc2.36";
     SysLogHandler_init := fun _ => None |}.

Definition all_resolve : value -> option exception := fun _ => None.


Definition example_hosts : list value :=
  [VStr "weka01"; VStr "weka02"; VStr "weka03"].

Definition example_cluster : dict :=
  [("hosts", VList example_hosts); ("auth_token_file", VStr "auth-token.json")].

Definition example_exporter : dict :=
  [("listen_port", VInt 8101); ("timeout", VInt 5)].

Definition example_config : dict :=
  [("cluster", VDict example_cluster); ("exporter", VDict example_exporter)].

(** The same configuration with [exporter.listen_port] left out. *)
Definition example_config_no_port : dict :=
  [("cluster", VDict example_cluster); ("exporter", VDict [("timeout", VInt 5)])].

Definition quiet_world : world :=
  example_world all_resolve (inr (VDict example_config)) (inr 3%nat) None.

Definition example_args (v : Z) (version_flag : bool) : args :=
  {| argv0 := "quota-export.py"; configfile := "./quota-export.yml";
     no_syslog := false; verbosity := v; version := version_flag |}.

Definition port_in_use : exception :=
  OtherError "OSError" "[Errno 98] Address already in use".

Definition yaml_scanner_error : exception :=
  OtherError "yaml.scanner.ScannerError" "mapping values are not allowed here".

(** ** More environments

    One answer of an environment replaced, the others kept. *)

Definition with_Collector (f : value -> cluster_obj -> exception + collector)
    (w : world) : world :=
  {| path_exists := path_exists w;
     open_file := open_file w;
     yaml_load_FullLoader := yaml_load_FullLoader w;
     yaml_load_default := yaml_load_default w;
     gethostbyname := gethostbyname w;
     WekaCluster := WekaCluster w;
     Collector := f;
     int_of_str := int_of_str w;
     start_http_server := start_http_server w;
     registry_register := registry_register w;
     platform_platform := platform_platform w;
     SysLogHandler_init := SysLogHandler_init w |}.

Definition with_register (f : collector -> option exception) (w : world)
  : world :=
  {| path_exists := path_exists w;
     open_file := open_file w;
     yaml_load_FullLoader := yaml_load_FullLoader w;
     yaml_load_default := yaml_load_default w;
     gethostbyname := gethostbyname w;
     WekaCluster := WekaCluster w;
     Collector := Collector w;
     int_of_str := int_of_str w;
     start_http_server := start_http_server w;
     registry_register := f;
     platform_platform := platform_platform w;
     SysLogHandler_init := SysLogHandler_init w |}.

Definition with_files (exists_ : string -> bool)
    (open_ : string -> exception + string) (w : world) : world :=
  {| path_exists := exists_;
     open_file := open_;
     yaml_load_FullLoader := yaml_load_FullLoader w;
     yaml_load_default := yaml_load_default w;
     gethostbyname := gethostbyname w;
     WekaCluster := WekaCluster w;
     Collector := Collector w;
     int_of_str := int_of_str w;
     start_http_server := start_http_server w;
     registry_register := registry_register w;
     platform_platform := platform_platform w;
     SysLogHandler_init := SysLogHandler_init w |}.

Definition with_yaml (full default : string -> exception + value) (w : world)
  : world :=
  {| path_exists := path_exists w;
     open_file := open_file w;
     yaml_load_FullLoader := full;
     yaml_load_default := default;
     gethostbyname := gethostbyname w;
     WekaCluster := WekaCluster w;
     Collector := Collector w;
     int_of_str := int_of_str w;
     start_http_server := start_http_server w;
     registry_register := registry_register w;
     platform_platform := platform_platform w;
     SysLogHandler_init := SysLogHandler_init w |}.

Definition with_syslog (platform : string) (f : string -> option exception)
    (w : world) : world :=
  {| path_exists := path_exists w;
     open_file := open_file w;
     yaml_load_FullLoader := yaml_load_FullLoader w;
     yaml_load_default := yaml_load_default w;
     gethostbyname := gethostbyname w;
     WekaCluster := WekaCluster w;
     Collector := Collector w;
     int_of_str := int_of_str w;
     start_http_server := start_http_server w;
     registry_register := registry_register w;
     platform_platform := platform;
     SysLogHandler_init := f |}.

Definition no_such_file : exception :=
  OtherError "FileNotFoundError" "[Errno 2] No such file or directory".

Definition permission_denied : exception :=
  OtherError "PermissionError" "[Errno 13] Permission denied".

(** A configuration that sets every optional key itself. *)
Definition complete_cluster : dict :=
  [("hosts", VList example_hosts); ("auth_token_file", VStr "auth-token.json");
   ("force_https", VBool true); ("verify_cert", VBool false);
   ("mgmt_port", VInt 14100); ("filesystems", VList [VStr "default"])].

Definition complete_exporter : dict :=
  [("listen_port", VInt 8101); ("timeout", VInt 30);
   ("backends_only", VBool false); ("exceeded_only", VBool false)].

Definition complete_config : dict :=
  [("cluster", VDict complete_cluster); ("exporter", VDict complete_exporter)].

(** Variations of the example configuration. An [exporter:] stanza left
    empty in the YAML file loads as [None]. *)
Definition null_exporter_config : dict :=
  [("cluster", VDict example_cluster); ("exporter", VNone)].

Definition cluster_only_config : dict :=
  [("cluster", VDict example_cluster)].

Definition string_hosts_config : dict :=
  [("cluster", VDict [("hosts", VStr "w1")])].

Definition no_hosts_cluster : dict :=
  [("hosts", VList []); ("auth_token_file", VStr "auth-token.json")].

Definition no_hosts_config : dict :=
  [("cluster", VDict no_hosts_cluster); ("exporter", VDict example_exporter)].

Definition no_token_cluster : dict := [("hosts", VList example_hosts)].

Definition no_token_config : dict :=
  [("cluster", VDict no_token_cluster); ("exporter", VDict example_exporter)].

Definition bad_port_exporter : dict := [("listen_port", VStr "http")].

Definition bad_port_config : dict :=
  [("cluster", VDict example_cluster); ("exporter", VDict bad_port_exporter)].

Definition example_token : value := VStr "auth-token.json".

Definition server_error : exception := HTTPError 500 "Internal Server Error".

Definition collector_error : exception :=
  OtherError "RuntimeError" "collector set-up failed".

Definition duplicate_metric : exception := ValueError.

(** Whether a stanza sets every key of a table of defaults. *)
Definition has_all_keys (sec defaults : dict) : bool :=
  forallb (fun kv => dict_mem sec (fst kv)) defaults.

(** ** The entry point *)

(** [main] calls [prom_client] as a statement: what it returns is
    dropped, every other ending is passed on. *)
Definition discard {A} (r : result A) : result unit :=
  match r with
  | Ret _ => Ret tt
  | Raise exc => Raise exc
  | Exit n => Exit n
  | Forever => Forever
  end.

(** The events that are log records or hostname lookups. *)
Definition is_lookup_or_log (ev : event) : bool :=
  match ev with
  | EvGetHostByName _ | EvLog _ _ => true
  | _ => false
  end.

(** * Properties *)

(** ** Dicts *)

Section DictFacts.

Implicit Types (d : dict) (k : string) (v : value).

Lemma dict_get_set_eq d k v : dict_get (dict_set d k v) k = Some v.
Proof.
  induction d as [|[k' v'] d IH]; simpl.
  - now rewrite String.eqb_refl.
  - destruct (String.eqb k' k) eqn:E; simpl; rewrite E; auto.
Qed.

Lemma dict_get_set_ne d k k' v :
  k <> k' -> dict_get (dict_set d k v) k' = dict_get d k'.
Proof.
  intros Hne. induction d as [|[k0 v0] d IH]; simpl.
  - apply String.eqb_neq in Hne. now rewrite Hne.
  - destruct (String.eqb k0 k) eqn:E; simpl.
    + apply String.eqb_eq in E. subst k0.
      apply String.eqb_neq in Hne. now rewrite Hne.
    + now rewrite IH.
Qed.

(** Storing the value a key already has changes nothing. *)
Lemma dict_set_same d k v : dict_get d k = Some v -> dict_set d k v = d.
Proof.
  induction d as [|[k' v'] d IH]; simpl; [discriminate|].
  destruct (String.eqb k' k) eqn:E.
  - now intros [= ->].
  - intros H. now rewrite IH.
Qed.

Lemma dict_set_set d k v v' : dict_set (dict_set d k v) k v' = dict_set d k v'.
Proof.
  induction d as [|[k0 v0] d IH]; simpl.
  - now rewrite String.eqb_refl.
  - destruct (String.eqb k0 k) eqn:E; simpl; rewrite E; [reflexivity|].
    now rewrite IH.
Qed.

(** A key that is absent is appended, after every key already there. *)
Lemma dict_set_absent d k v : dict_get d k = None -> dict_set d k v = d ++ [(k, v)].
Proof.
  induction d as [|[k' v'] d IH]; simpl; [reflexivity|].
  destruct (String.eqb k' k); [discriminate|].
  intros H. now rewrite IH.
Qed.

End DictFacts.

(** ** Running the monad *)

Section Run.

Context {A B : Type}.
Implicit Types (m : M A) (f : A -> M B) (s : logging_state) (t : list event).

Lemma run_bind m f s a s1 t1 r s2 t2 :
  m s = (Ret a, s1, t1) -> f a s1 = (r, s2, t2) ->
  bind m f s = (r, s2, t1 ++ t2).
Proof. intros Hm Hf. unfold bind. now rewrite Hm, Hf. Qed.

Lemma run_bind_raise m f s e s1 t1 :
  m s = (Raise e, s1, t1) -> bind m f s = (Raise e, s1, t1).
Proof. intros Hm. unfold bind. now rewrite Hm. Qed.

Lemma run_bind_exit m f s n s1 t1 :
  m s = (Exit n, s1, t1) -> bind m f s = (Exit n, s1, t1).
Proof. intros Hm. unfold bind. now rewrite Hm. Qed.

Lemma run_attempt_ret m s a s1 t1 :
  m s = (Ret a, s1, t1) -> attempt m s = (Ret (inr a), s1, t1).
Proof. intros Hm. unfold attempt. now rewrite Hm. Qed.

Lemma run_attempt_raise m s e s1 t1 :
  m s = (Raise e, s1, t1) -> attempt m s = (Ret (inl e), s1, t1).
Proof. intros Hm. unfold attempt. now rewrite Hm. Qed.

End Run.

(** A computation that returns without touching anything can be
    dropped from a sequence. *)
Lemma run_bind_pure {A B} (m : M A) (f : A -> M B) s a :
  m s = (Ret a, s, []) -> bind m f s = f a s.
Proof.
  intros Hm. unfold bind. rewrite Hm. now destruct (f a s) as [[r s2] t2].
Qed.

Lemma run_bind_emit {B} (ev : event) (f : unit -> M B) s r s2 t2 :
  f tt s = (r, s2, t2) -> bind (emit ev) f s = (r, s2, ev :: t2).
Proof. intros Hf. unfold bind, emit. now rewrite Hf. Qed.

Lemma run_bind_log {B} lvl msg (f : unit -> M B) s r s2 t2 :
  f tt s = (r, s2, t2) -> bind (log lvl msg) f s = (r, s2, EvLog lvl msg :: t2).
Proof. apply run_bind_emit. Qed.

Lemma silent_ret {A} (a : A) : silent (ret a).
Proof. intros s. reflexivity. Qed.

Lemma silent_lift {A} (x : exception + A) : silent (lift x).
Proof. intros s. now destruct x. Qed.

Lemma silent_bind {A B} (m : M A) (f : A -> M B) :
  silent m -> (forall a, silent (f a)) -> silent (bind m f).
Proof.
  intros Hm Hf s. specialize (Hm s). unfold bind, trace_of in *.
  destruct (m s) as [[r s1] t1]. simpl in Hm. subst t1.
  destruct r as [a| | |]; try reflexivity.
  specialize (Hf a s1). unfold trace_of in Hf.
  now destruct (f a s1) as [[r2 s2] t2].
Qed.

(** ** Hostname resolution *)

Section Resolution.

Variable w : world.

Lemma resolve_host_run host error s :
  resolve_host w host error s
  = (Ret (error || failed w host), s, resolve_events w host).
Proof.
  unfold resolve_host, resolve_events, failed.
  apply run_bind_emit.
  destruct (gethostbyname w host) as [exc|].
  - rewrite orb_true_r.
    destruct exc; apply run_bind_log; reflexivity.
  - now rewrite orb_false_r.
Qed.

(** The loop never stops early: it visits every host, whatever the
    earlier ones answered. *)
Lemma resolve_hosts_run hosts : forall error s,
  resolve_hosts w hosts error s
  = (Ret (error || existsb (failed w) hosts), s,
     flat_map (resolve_events w) hosts).
Proof.
  induction hosts as [|host rest IH]; intros error s; simpl.
  - now rewrite orb_false_r.
  - erewrite run_bind; [|apply resolve_host_run|apply IH].
    now rewrite orb_assoc.
Qed.

Lemma resolved_hosts_app t1 t2 :
  resolved_hosts (t1 ++ t2) = resolved_hosts t1 ++ resolved_hosts t2.
Proof. unfold resolved_hosts. apply flat_map_app. Qed.

Lemma resolved_hosts_events hosts :
  resolved_hosts (flat_map (resolve_events w) hosts) = hosts.
Proof.
  induction hosts as [|host rest IH]; [reflexivity|].
  change (flat_map (resolve_events w) (host :: rest))
    with (resolve_events w host ++ flat_map (resolve_events w) rest).
  rewrite resolved_hosts_app, IH.
  unfold resolve_events.
  destruct (gethostbyname w host) as [[]|]; reflexivity.
Qed.


Lemma all_resolved_events hosts :
  existsb (failed w) hosts = false ->
  flat_map (resolve_events w) hosts = map EvGetHostByName hosts.
Proof.
  induction hosts as [|host rest IH]; [reflexivity|].
  simpl. intros H. apply orb_false_elim in H as [Hh Hr].
  rewrite (IH Hr). unfold resolve_events, failed in *.
  now destruct (gethostbyname w host).
Qed.

End Resolution.

(** ** Defaulting *)

Lemma with_default_get sec key dflt k :
  dict_get (with_default sec key dflt) k
  = or_default (dict_get sec k) (if String.eqb key k then Some dflt else None).
Proof.
  unfold with_default, dict_mem, or_default.
  destruct (dict_get sec key) as [x|] eqn:Hkey.
  - destruct (String.eqb key k) eqn:E.
    + apply String.eqb_eq in E. subst k. now rewrite Hkey.
    + now destruct (dict_get sec k).
  - destruct (String.eqb key k) eqn:E.
    + apply String.eqb_eq in E. subst k.
      now rewrite dict_get_set_eq, Hkey.
    + apply String.eqb_neq in E. rewrite (dict_get_set_ne _ _ _ _ E).
      now destruct (dict_get sec k).
Qed.

Lemma cluster_defaulted_get c k :
  dict_get (cluster_defaulted c) k
  = or_default (dict_get c k) (dict_get cluster_defaults k).
Proof.
  unfold cluster_defaulted, cluster_defaults. rewrite !with_default_get.
  destruct (dict_get c k); [reflexivity|]. cbn [dict_get or_default].
  now destruct (String.eqb "force_https" k), (String.eqb "filesystems" k),
    (String.eqb "verify_cert" k), (String.eqb "mgmt_port" k).
Qed.

Lemma exporter_defaulted_get e k :
  dict_get (exporter_defaulted e) k
  = or_default (dict_get e k) (dict_get exporter_defaults k).
Proof.
  unfold exporter_defaulted, exporter_defaults. rewrite !with_default_get.
  destruct (dict_get e k); [reflexivity|]. cbn [dict_get or_default].
  now destruct (String.eqb "timeout" k), (String.eqb "backends_only" k),
    (String.eqb "exceeded_only" k).
Qed.

Lemma validated_cluster top c e :
  py_getitem (validated top c e) "cluster" = inr (VDict (cluster_defaulted c)).
Proof.
  unfold validated, py_getitem.
  rewrite dict_get_set_ne by discriminate.
  now rewrite dict_get_set_eq.
Qed.

Lemma validated_exporter top c e :
  py_getitem (validated top c e) "exporter" = inr (VDict (exporter_defaulted e)).
Proof. unfold validated, py_getitem. now rewrite dict_get_set_eq. Qed.

Lemma validated_other top c e k :
  k <> "cluster" -> k <> "exporter" ->
  dict_get (dict_set (dict_set top "cluster" (VDict (cluster_defaulted c)))
              "exporter" (VDict (exporter_defaulted e))) k
  = dict_get top k.
Proof.
  intros H1 H2. rewrite !dict_get_set_ne; [reflexivity|congruence|congruence].
Qed.

Section Validation.

Variable w : world.

Lemma default_key_run stanza key dflt top sec s :
  dict_get top stanza = Some (VDict sec) ->
  default_key stanza key dflt (VDict top) s
  = (Ret (VDict (dict_set top stanza (VDict (with_default sec key dflt)))), s, []).
Proof.
  intros Hsec.
  assert (Hget : lift (py_getitem (VDict top) stanza) s = (Ret (VDict sec), s, []))
    by (unfold py_getitem; now rewrite Hsec).
  unfold default_key, with_default.
  rewrite (run_bind_pure _ _ s _ Hget).
  rewrite (run_bind_pure _ _ s (dict_mem sec key)) by reflexivity.
  destruct (dict_mem sec key).
  - now rewrite (dict_set_same _ _ _ Hsec).
  - rewrite (run_bind_pure _ _ s _ Hget).
    now rewrite (run_bind_pure _ _ s (VDict (dict_set sec key dflt))).
Qed.

Lemma apply_defaults_run top c e s :
  dict_get top "cluster" = Some (VDict c) ->
  dict_get top "exporter" = Some (VDict e) ->
  apply_defaults (VDict top) s = (Ret (validated top c e), s, []).
Proof.
  intros Hc He. unfold apply_defaults, validated, cluster_defaulted,
    exporter_defaulted.
  erewrite run_bind_pure; [|apply default_key_run; eassumption].
  do 3 (erewrite run_bind_pure; [|apply default_key_run; apply dict_get_set_eq];
        rewrite dict_set_set).
  erewrite run_bind_pure;
    [|apply default_key_run; rewrite dict_get_set_ne by discriminate;
      eassumption].
  erewrite run_bind_pure; [|apply default_key_run; apply dict_get_set_eq].
  rewrite dict_set_set.
  erewrite default_key_run by apply dict_get_set_eq.
  now rewrite dict_set_set.
Qed.

(** Defaulting makes no call and logs nothing, also when it raises. *)
Lemma silent_default_key stanza key dflt config :
  silent (default_key stanza key dflt config).
Proof.
  unfold default_key.
  repeat first [ apply silent_bind; [apply silent_lift|intros ?]
               | apply silent_lift
               | apply silent_ret
               | match goal with |- silent (if ?b then _ else _) => destruct b end ].
Qed.

Lemma silent_apply_defaults config : silent (apply_defaults config).
Proof.
  unfold apply_defaults.
  repeat (apply silent_bind; [apply silent_default_key|intros ?]).
  apply silent_default_key.
Qed.

End Validation.

(** ** The validation part of [prom_client] *)

Section Preflight.

Variable w : world.
Variables (top c : dict) (hosts : value) (hs : list value).

Hypothesis Hcluster : dict_get top "cluster" = Some (VDict c).
Hypothesis Hhosts : dict_get c "hosts" = Some hosts.
Hypothesis Hiter : py_iter hosts = inr hs.

(** Lines 41-49 on a configuration whose hosts can be iterated. *)
Lemma preflight_enters_loop (k : bool -> M value) s :
  (do cluster <- lift (py_getitem (VDict top) "cluster");
   do hosts <- lift (py_getitem cluster "hosts");
   do items <- lift (py_iter hosts);
   do error <- resolve_hosts w items false;
   k error) s
  = (do error <- resolve_hosts w hs false; k error) s.
Proof.
  rewrite (run_bind_pure _ _ s (VDict c))
    by (unfold py_getitem; now rewrite Hcluster).
  rewrite (run_bind_pure _ _ s hosts)
    by (unfold py_getitem; now rewrite Hhosts).
  now rewrite (run_bind_pure _ _ s hs) by now rewrite Hiter.
Qed.

Lemma preflight_resolution_failure s :
  existsb (failed w) hs = true ->
  preflight w (VDict top) s
  = (Exit 1, s,
     flat_map (resolve_events w) hs ++ [EvLog CRITICAL msg_resolve_errors]).
Proof.
  intros Hfail. unfold preflight. rewrite preflight_enters_loop.
  eapply run_bind; [apply resolve_hosts_run|].
  rewrite Hfail. cbn [orb].
  apply run_bind_log. reflexivity.
Qed.

Lemma preflight_ok e s :
  dict_get top "exporter" = Some (VDict e) ->
  existsb (failed w) hs = false ->
  preflight w (VDict top) s
  = (Ret (validated top c e), s, map EvGetHostByName hs).
Proof.
  intros Hexp Hres. unfold preflight. rewrite preflight_enters_loop.
  rewrite <- (all_resolved_events w hs Hres).
  rewrite <- (app_nil_r (flat_map _ hs)).
  eapply run_bind; [apply resolve_hosts_run|].
  rewrite Hres. cbn [orb].
  rewrite (run_bind_pure _ _ s true)
    by (unfold py_contains, dict_mem; now rewrite Hcluster).
  cbn [negb].
  rewrite (run_bind_pure _ _ s true)
    by (unfold py_contains, dict_mem; now rewrite Hexp).
  cbn [negb].
  now apply apply_defaults_run.
Qed.

(** Lines 51-59 once every host has resolved: the [cluster] test of
    line 54 is passed, because line 41 has already read that stanza. *)
Lemma preflight_resolved s r s2 t :
  existsb (failed w) hs = false ->
  (if dict_mem top "exporter" then apply_defaults (VDict top)
   else do _ <- log ERROR msg_exporter_missing; sys_exit 1) s = (r, s2, t) ->
  preflight w (VDict top) s = (r, s2, map EvGetHostByName hs ++ t).
Proof.
  intros Hres Hk. unfold preflight. rewrite preflight_enters_loop.
  rewrite <- (all_resolved_events w hs Hres).
  eapply run_bind; [apply resolve_hosts_run|].
  rewrite Hres. cbn [orb].
  rewrite (run_bind_pure _ _ s true)
    by (unfold py_contains, dict_mem; now rewrite Hcluster).
  cbn [negb].
  rewrite (run_bind_pure _ _ s (dict_mem top "exporter")) by reflexivity.
  now destruct (dict_mem top "exporter").
Qed.

Lemma cluster_message_not_logged_here s :
  ~ In (EvLog ERROR msg_cluster_missing) (trace_of (preflight w (VDict top) s)).
Proof.
  destruct (existsb (failed w) hs) eqn:Hres.
  - rewrite (preflight_resolution_failure s Hres). unfold trace_of. simpl snd.
    intros Hin. apply in_app_or in Hin as [Hin|Hin].
    + apply in_flat_map in Hin as (host & _ & Hin). unfold resolve_events in Hin.
      destruct (gethostbyname w host) as [[]|]; simpl in Hin;
        intuition discriminate.
    + simpl in Hin. intuition discriminate.
  - destruct ((if dict_mem top "exporter" then apply_defaults (VDict top)
               else do _ <- log ERROR msg_exporter_missing; sys_exit 1) s)
      as [[r s2] t] eqn:Hk.
    rewrite (preflight_resolved s r s2 t Hres Hk). unfold trace_of. simpl snd.
    intros Hin. apply in_app_or in Hin as [Hin|Hin].
    + apply in_map_iff in Hin as (host & Heq & _). discriminate.
    + destruct (dict_mem top "exporter").
      * pose proof (silent_apply_defaults (VDict top) s) as Hsil.
        rewrite Hk in Hsil. unfold trace_of in Hsil. simpl in Hsil.
        subst t. contradiction.
      * injection Hk as _ _ <-. simpl in Hin.
        destruct Hin as [Hin|[]]. discriminate.
Qed.

End Preflight.

(** The stanza check of lines 54-56 is dead code: on no configuration
    and in no environment does validation log its message. *)
Lemma cluster_check_unreachable w config s :
  ~ In (EvLog ERROR msg_cluster_missing) (trace_of (preflight w config s)).
Proof.
  assert (Hraise : forall exc,
            lift (py_getitem config "cluster") s = (Raise exc, s, []) ->
            ~ In (EvLog ERROR msg_cluster_missing)
                (trace_of (preflight w config s))).
  { intros exc H. unfold preflight. rewrite (run_bind_raise _ _ _ _ _ _ H).
    intros []. }
  destruct config as [| | | | |top]; try (now apply (Hraise TypeError)).
  destruct (dict_get top "cluster") as [cl|] eqn:Hc;
    [|apply (Hraise (KeyError "cluster")); unfold py_getitem; now rewrite Hc].
  clear Hraise.
  assert (Hget : lift (py_getitem (VDict top) "cluster") s = (Ret cl, s, []))
    by (unfold py_getitem; now rewrite Hc).
  assert (Hraise : forall exc,
            lift (py_getitem cl "hosts") s = (Raise exc, s, []) ->
            ~ In (EvLog ERROR msg_cluster_missing)
                (trace_of (preflight w (VDict top) s))).
  { intros exc H. unfold preflight. rewrite (run_bind_pure _ _ _ _ Hget).
    rewrite (run_bind_raise _ _ _ _ _ _ H). intros []. }
  destruct cl as [| | | | |c]; try (now apply (Hraise TypeError)).
  destruct (dict_get c "hosts") as [hosts|] eqn:Hh;
    [|apply (Hraise (KeyError "hosts")); unfold py_getitem; now rewrite Hh].
  clear Hraise.
  destruct (py_iter hosts) as [exc|hs] eqn:Hi.
  - unfold preflight. rewrite (run_bind_pure _ _ _ _ Hget).
    rewrite (run_bind_pure _ _ s hosts)
      by (unfold py_getitem; now rewrite Hh).
    rewrite (run_bind_raise _ _ s exc s []) by now rewrite Hi.
    intros [].
  - now apply (cluster_message_not_logged_here w top c hosts hs Hc Hh Hi).
Qed.

Lemma all_resolve_not_failed w hs :
  (forall h, In h hs -> gethostbyname w h = None) ->
  existsb (failed w) hs = false.
Proof.
  intros H. induction hs as [|h rest IH]; [reflexivity|].
  simpl. unfold failed at 1. rewrite (H h) by now left.
  apply IH. intros h' Hin. apply H. now right.
Qed.


(** C1. A configuration mapping without the [cluster] stanza never
    reaches the stanza check of line 54: the subscript [config['cluster']]
    of line 41 raises [KeyError] first. No hostname is resolved, but no
    message is logged either, and what ends the run is the uncaught
    [KeyError], not the [sys.exit(1)] of line 56. *)
Theorem missing_cluster_raises_KeyError (w : world) (top : dict) s :
  dict_get top "cluster" = None ->
  prom_client w (VDict top) s = (Raise (KeyError "cluster"), s, []).
Proof.
  intros Hnone. unfold prom_client, preflight.
  apply run_bind_raise. apply run_bind_raise.
  unfold py_getitem. now rewrite Hnone.
Qed.

(** C2, as the code has it. On a configuration that passes the host and
    stanza checks and whose [exporter] stanza is a mapping, validation
    returns the configuration in which each stanza holds, for
    every key, the explicit value when there was one and the default of
    that key otherwise; every other top-level key is untouched. A missing
    [exporter.timeout] becomes 10 and [exporter.timeout: 5] stays 5. *)
Theorem validation_applies_defaults (w : world) (top c e : dict)
    (hosts : value) (hs : list value) s :
  dict_get top "cluster" = Some (VDict c) ->
  dict_get c "hosts" = Some hosts ->
  py_iter hosts = inr hs ->
  (forall h, In h hs -> gethostbyname w h = None) ->
  dict_get top "exporter" = Some (VDict e) ->
  exists top' c' e',
    preflight w (VDict top) s = (Ret (VDict top'), s, map EvGetHostByName hs)
    /\ dict_get top' "cluster" = Some (VDict c')
    /\ dict_get top' "exporter" = Some (VDict e')
    /\ (forall k, k <> "cluster" -> k <> "exporter" ->
                  dict_get top' k = dict_get top k)
    /\ (forall k, dict_get c' k
                  = or_default (dict_get c k) (dict_get cluster_defaults k))
    /\ (forall k, dict_get e' k
                  = or_default (dict_get e k) (dict_get exporter_defaults k))
    /\ (dict_get e "timeout" = None -> dict_get e' "timeout" = Some (VInt 10))
    /\ (dict_get e "timeout" = Some (VInt 5) ->
        dict_get e' "timeout" = Some (VInt 5)).
Proof.
  intros Hc Hh Hi Hres He.
  exists (dict_set (dict_set top "cluster" (VDict (cluster_defaulted c)))
            "exporter" (VDict (exporter_defaulted e))),
    (cluster_defaulted c), (exporter_defaulted e).
  split; [|split; [|split; [|split; [|split; [|split; [|split]]]]]].
  - apply (preflight_ok w top c hosts hs Hc Hh Hi e s He).
    now apply all_resolve_not_failed.
  - rewrite dict_get_set_ne by discriminate. apply dict_get_set_eq.
  - apply dict_get_set_eq.
  - apply validated_other.
  - apply cluster_defaulted_get.
  - apply exporter_defaulted_get.
  - intros Hnone. now rewrite exporter_defaulted_get, Hnone.
  - intros Hfive. now rewrite exporter_defaulted_get, Hfive.
Qed.

(** An [exporter:] stanza left empty passes both stanza checks of lines
    54-59, which only test that the key is there; the first default of
    the stanza (line 75) then raises [TypeError], and no defaulted
    configuration is returned. *)
Lemma empty_exporter_stanza_raises :
  py_contains (VDict null_exporter_config) "cluster" = inr true
  /\ py_contains (VDict null_exporter_config) "exporter" = inr true
  /\ preflight quiet_world (VDict null_exporter_config) logging_init
     = (Raise TypeError, logging_init, map EvGetHostByName example_hosts)
  /\ forall config',
       res_of (preflight quiet_world (VDict null_exporter_config) logging_init)
       <> Ret config'.
Proof. repeat split. discriminate. Qed.


(** ** The runtime part of [prom_client] *)

Lemma cluster_defaulted_lookup c k dflt :
  dict_get cluster_defaults k = Some dflt ->
  dict_get (cluster_defaulted c) k = Some (lookup_or c k dflt).
Proof.
  intros Hd. rewrite cluster_defaulted_get, Hd. unfold lookup_or, or_default.
  now destruct (dict_get c k).
Qed.

Lemma exporter_defaulted_lookup e k dflt :
  dict_get exporter_defaults k = Some dflt ->
  dict_get (exporter_defaulted e) k = Some (lookup_or e k dflt).
Proof.
  intros Hd. rewrite exporter_defaulted_get, Hd. unfold lookup_or, or_default.
  now destruct (dict_get e k).
Qed.

Lemma cluster_defaulted_explicit c k v :
  dict_get c k = Some v -> dict_get (cluster_defaulted c) k = Some v.
Proof. intros H. now rewrite cluster_defaulted_get, H. Qed.

Lemma exporter_defaulted_explicit e k v :
  dict_get e k = Some v -> dict_get (exporter_defaulted e) k = Some v.
Proof. intros H. now rewrite exporter_defaulted_get, H. Qed.

(** The handlers of the connection errors all end in a bare [return]. *)
Lemma on_connect_error_run exc s :
  on_connect_error exc s = (Ret None, s, trace_of (on_connect_error exc s)).
Proof.
  destruct exc as [| | | | |code msg| |]; try reflexivity.
  unfold on_connect_error. now destruct (code =? 403).
Qed.

Section Runtime.

Variable w : world.
Variables (top c e : dict).

Local Abbreviation config := (validated top c e).

Lemma get2_cluster k v s :
  dict_get (cluster_defaulted c) k = Some v ->
  get2 config "cluster" k s = (Ret v, s, []).
Proof.
  intros Hk. unfold get2. rewrite validated_cluster.
  rewrite (run_bind_pure _ _ s (VDict (cluster_defaulted c))) by reflexivity.
  unfold py_getitem. now rewrite Hk.
Qed.

Lemma get2_exporter k v s :
  dict_get (exporter_defaulted e) k = Some v ->
  get2 config "exporter" k s = (Ret v, s, []).
Proof.
  intros Hk. unfold get2. rewrite validated_exporter.
  rewrite (run_bind_pure _ _ s (VDict (exporter_defaulted e))) by reflexivity.
  unfold py_getitem. now rewrite Hk.
Qed.

Lemma get2_exporter_missing k s :
  dict_get (exporter_defaulted e) k = None ->
  get2 config "exporter" k s = (Raise (KeyError k), s, []).
Proof.
  intros Hk. unfold get2. rewrite validated_exporter.
  rewrite (run_bind_pure _ _ s (VDict (exporter_defaulted e))) by reflexivity.
  unfold py_getitem. now rewrite Hk.
Qed.

Lemma get2_cluster_missing k s :
  dict_get (cluster_defaulted c) k = None ->
  get2 config "cluster" k s = (Raise (KeyError k), s, []).
Proof.
  intros Hk. unfold get2. rewrite validated_cluster.
  rewrite (run_bind_pure _ _ s (VDict (cluster_defaulted c))) by reflexivity.
  unfold py_getitem. now rewrite Hk.
Qed.

Variables (hosts tok : value).
Hypothesis Hhosts : dict_get c "hosts" = Some hosts.
Hypothesis Htok : dict_get c "auth_token_file" = Some tok.

Local Abbreviation a := (connect_args_of c e hosts tok).

(** The [try] body of lines 87-92: every argument is there, the
    constructor is called once and its outcome is the outcome. *)
Lemma connect_run s :
  connect w config s
  = (match WekaCluster w a with inr h => Ret h | inl exc => Raise exc end,
     s, [EvWekaCluster a]).
Proof.
  unfold connect.
  rewrite (run_bind_pure _ _ s hosts)
    by (apply get2_cluster; now apply cluster_defaulted_explicit).
  rewrite (run_bind_pure _ _ s tok)
    by (apply get2_cluster; now apply cluster_defaulted_explicit).
  rewrite (run_bind_pure _ _ s (lookup_or c "force_https" (VBool false)))
    by (apply get2_cluster; now apply cluster_defaulted_lookup).
  rewrite (run_bind_pure _ _ s (lookup_or c "verify_cert" (VBool true)))
    by (apply get2_cluster; now apply cluster_defaulted_lookup).
  rewrite (run_bind_pure _ _ s (lookup_or e "backends_only" (VBool true)))
    by (apply get2_exporter; now apply exporter_defaulted_lookup).
  rewrite (run_bind_pure _ _ s (lookup_or e "timeout" (VInt 10)))
    by (apply get2_exporter; now apply exporter_defaulted_lookup).
  rewrite (run_bind_pure _ _ s (lookup_or c "mgmt_port" (VInt 14000)))
    by (apply get2_cluster; now apply cluster_defaulted_lookup).
  cbv zeta. apply run_bind_emit.
  change (lift (WekaCluster w a) s
          = (match WekaCluster w a with inr h => Ret h | inl exc => Raise exc end,
             s, [])).
  now destruct (WekaCluster w a).
Qed.

Local Abbreviation timeout_logged :=
  (EvLog INFO (msg_timeout (lookup_or e "timeout" (VInt 10)))).

Lemma runtime_enters_connect (k : exception + cluster_obj -> M (option Z))
    s x r s2 t2 :
  attempt (connect w config) s = (Ret x, s, [EvWekaCluster a]) ->
  k x s = (r, s2, t2) ->
  (do timeout <- get2 config "exporter" "timeout";
   do _ <- log INFO (msg_timeout timeout);
   do r <- attempt (connect w config);
   k r) s
  = (r, s2, timeout_logged :: EvWekaCluster a :: t2).
Proof.
  intros Hconn Hk.
  rewrite (run_bind_pure _ _ s (lookup_or e "timeout" (VInt 10)))
    by (apply get2_exporter; now apply exporter_defaulted_lookup).
  apply run_bind_log.
  change (EvWekaCluster a :: t2) with ([EvWekaCluster a] ++ t2).
  eapply run_bind; eassumption.
Qed.

(** A failed connection: the handler's messages follow the call, and the
    function returns [None]. *)
Lemma runtime_connect_failed exc s :
  WekaCluster w a = inl exc ->
  runtime w config s
  = (Ret None, s,
     timeout_logged :: EvWekaCluster a :: trace_of (on_connect_error exc s)).
Proof.
  intros Hw. unfold runtime.
  apply (runtime_enters_connect _ s (inl exc)).
  - apply run_attempt_raise. rewrite connect_run. now rewrite Hw.
  - apply on_connect_error_run.
Qed.

Lemma runtime_connected h s r s2 t2 :
  WekaCluster w a = inr h ->
  serve w config h s = (r, s2, t2) ->
  runtime w config s = (r, s2, timeout_logged :: EvWekaCluster a :: t2).
Proof.
  intros Hw Hserve. unfold runtime.
  apply (runtime_enters_connect _ s (inr h)).
  - apply run_attempt_ret. rewrite connect_run. now rewrite Hw.
  - exact Hserve.
Qed.

Variables (h : cluster_obj) (coll : collector).
Hypothesis Hcoll : Collector w config h = inr coll.

(** Line 115 reads [listen_port] with no handler around it. *)
Lemma serve_missing_port s :
  dict_get e "listen_port" = None ->
  serve w config h s = (Raise (KeyError "listen_port"), s, [EvCollector config h]).
Proof.
  intros Hnone. unfold serve. apply run_bind_emit.
  rewrite (run_bind_pure _ _ s coll) by now rewrite Hcoll.
  apply run_bind_raise. apply get2_exporter_missing.
  now rewrite exporter_defaulted_get, Hnone.
Qed.

Lemma serve_start_failed port n exc s :
  dict_get e "listen_port" = Some port ->
  py_int w port = inr n ->
  start_http_server w n = Some exc ->
  serve w config h s
  = (Ret (Some 1), s,
     [EvCollector config h;
      EvLog INFO [Lit "starting http server on port "; Fmt port];
      EvStartHttpServer n;
      EvLog CRITICAL (msg_server_failed port exc)]).
Proof.
  intros Hport Hint Hstart.
  assert (Hget : forall s', get2 config "exporter" "listen_port" s'
                            = (Ret port, s', [])).
  { intros s'. apply get2_exporter. now apply exporter_defaulted_explicit. }
  unfold serve. apply run_bind_emit.
  rewrite (run_bind_pure _ _ s coll) by now rewrite Hcoll.
  rewrite (run_bind_pure _ _ s port) by apply Hget.
  apply run_bind_log.
  change [EvStartHttpServer n; EvLog CRITICAL (msg_server_failed port exc)]
    with ([EvStartHttpServer n] ++ [EvLog CRITICAL (msg_server_failed port exc)]).
  eapply run_bind.
  - apply run_attempt_raise. unfold start_server.
    rewrite (run_bind_pure _ _ s port) by apply Hget.
    rewrite (run_bind_pure _ _ s n) by now rewrite Hint.
    apply run_bind_emit. now rewrite Hstart.
  - cbv beta iota.
    rewrite (run_bind_pure _ _ s port) by apply Hget.
    apply run_bind_log. reflexivity.
Qed.

End Runtime.

(** ** Whole runs of [prom_client] *)

Section WholeRun.

Variable w : world.
Variables (top c e : dict) (hosts tok : value) (hs : list value).

Hypothesis Hcluster : dict_get top "cluster" = Some (VDict c).
Hypothesis Hexporter : dict_get top "exporter" = Some (VDict e).
Hypothesis Hhosts : dict_get c "hosts" = Some hosts.
Hypothesis Hiter : py_iter hosts = inr hs.
Hypothesis Hresolve : forall h, In h hs -> gethostbyname w h = None.

(** After a validation that passes, [prom_client] is its runtime part
    on the defaulted configuration. *)
Lemma prom_client_validated s r s2 t :
  runtime w (validated top c e) s = (r, s2, t) ->
  prom_client w (VDict top) s = (r, s2, map EvGetHostByName hs ++ t).
Proof.
  intros Hrun. unfold prom_client. eapply run_bind; [|exact Hrun].
  apply (preflight_ok w top c hosts hs Hcluster Hhosts Hiter e s Hexporter).
  now apply all_resolve_not_failed.
Qed.

Hypothesis Htok : dict_get c "auth_token_file" = Some tok.

Lemma prom_client_connect_failed exc s :
  WekaCluster w (connect_args_of c e hosts tok) = inl exc ->
  prom_client w (VDict top) s
  = (Ret None, s,
     map EvGetHostByName hs
     ++ EvLog INFO (msg_timeout (lookup_or e "timeout" (VInt 10)))
     :: EvWekaCluster (connect_args_of c e hosts tok)
     :: trace_of (on_connect_error exc s)).
Proof.
  intros Hw. apply prom_client_validated.
  now apply runtime_connect_failed.
Qed.

Lemma prom_client_connected h s r s2 t :
  WekaCluster w (connect_args_of c e hosts tok) = inr h ->
  serve w (validated top c e) h s = (r, s2, t) ->
  prom_client w (VDict top) s
  = (r, s2,
     map EvGetHostByName hs
     ++ EvLog INFO (msg_timeout (lookup_or e "timeout" (VInt 10)))
     :: EvWekaCluster (connect_args_of c e hosts tok) :: t).
Proof.
  intros Hw Hserve. apply prom_client_validated.
  now apply (runtime_connected w top c e hosts tok Hhosts Htok h).
Qed.

End WholeRun.

(** Resolving hosts leaves nothing but [gethostbyname] calls in the
    trace when every host resolves. *)
Lemma In_resolved_prefix ev hs t :
  In ev (map EvGetHostByName hs ++ t) ->
  (exists h, ev = EvGetHostByName h) \/ In ev t.
Proof.
  intros Hin. apply in_app_or in Hin as [Hin|Hin]; [left|now right].
  apply in_map_iff in Hin as (h & <- & _). now exists h.
Qed.

(** C5. When the HTTP server does not start on [exporter.listen_port],
    [prom_client] logs the critical message of line 119 and returns 1;
    the collector is not registered. On a failed cluster connection the
    same function returns [None] instead. *)
Theorem server_start_failure_returns_1 (w : world) (top c e : dict)
    (hosts tok port : value) (hs : list value) (h : cluster_obj)
    (coll : collector) (n : Z) (exc : exception) s :
  dict_get top "cluster" = Some (VDict c) ->
  dict_get top "exporter" = Some (VDict e) ->
  dict_get c "hosts" = Some hosts ->
  py_iter hosts = inr hs ->
  (forall x, In x hs -> gethostbyname w x = None) ->
  dict_get c "auth_token_file" = Some tok ->
  WekaCluster w (connect_args_of c e hosts tok) = inr h ->
  Collector w (validated top c e) h = inr coll ->
  dict_get e "listen_port" = Some port ->
  py_int w port = inr n ->
  start_http_server w n = Some exc ->
  let t :=
    map EvGetHostByName hs
    ++ [EvLog INFO (msg_timeout (lookup_or e "timeout" (VInt 10)));
        EvWekaCluster (connect_args_of c e hosts tok);
        EvCollector (validated top c e) h;
        EvLog INFO [Lit "starting http server on port "; Fmt port];
        EvStartHttpServer n;
        EvLog CRITICAL (msg_server_failed port exc)] in
  prom_client w (VDict top) s = (Ret (Some 1), s, t)
  /\ (forall x, ~ In (EvRegister x) t)
  /\ (forall w' exc',
          (forall x, In x hs -> gethostbyname w' x = None) ->
          WekaCluster w' (connect_args_of c e hosts tok) = inl exc' ->
          res_of (prom_client w' (VDict top) s) = Ret None).
Proof.
  intros Hc He Hh Hi Hres Htok Hw Hcoll Hport Hint Hstart t.
  split; [|split].
  - apply (prom_client_connected w top c e hosts tok hs Hc He Hh Hi Hres Htok h).
    + exact Hw.
    + now apply (serve_start_failed w top c e h coll Hcoll port n exc).
  - intros x Hin. apply In_resolved_prefix in Hin as [[y Hy]|Hin];
      [discriminate|].
    simpl in Hin. intuition discriminate.
  - intros w' exc' Hres' Hw'.
    now rewrite (prom_client_connect_failed w' top c e hosts tok hs
                   Hc He Hh Hi Hres' Htok exc' s Hw').
Qed.

(** C8. A cluster connection that fails with [SSLError] gets the
    three SSL messages of lines 100-102, which say that only weka v3.10
    and above support https and that [force_https] is set, and a bare
    return: neither the permission message nor the generic one is
    logged. One that fails with [HTTPError] of code 403 gets the
    permission message of line 95. *)
Theorem ssl_error_takes_ssl_branch (w : world) (top c e : dict)
    (hosts tok : value) (hs : list value) (exc : exception) s :
  dict_get top "cluster" = Some (VDict c) ->
  dict_get top "exporter" = Some (VDict e) ->
  dict_get c "hosts" = Some hosts ->
  py_iter hosts = inr hs ->
  (forall x, In x hs -> gethostbyname w x = None) ->
  dict_get c "auth_token_file" = Some tok ->
  WekaCluster w (connect_args_of c e hosts tok) = inl exc ->
  let pre :=
    map EvGetHostByName hs
    ++ [EvLog INFO [Lit "Timeout set to ";
                    Fmt (lookup_or e "timeout" (VInt 10)); Lit " secs"];
        EvWekaCluster (connect_args_of c e hosts tok)] in
  (forall msg, exc = SSLError msg ->
     prom_client w (VDict top) s
     = (Ret None, s,
        pre ++ [EvLog CRITICAL
                  [Lit "SSL Error: Only weka v3.10 and above support https, and force_https is set in config file."];
                EvLog CRITICAL
                  [Lit "SSL Error: Is this cluster < v3.10? Please verify configuration"];
                EvLog CRITICAL [Lit "Error is "; FmtExc exc]])
     /\ ~ In (EvLog CRITICAL
                [Lit "Cluster returned permission error - is the userid level ReadOnly or above?"])
            (trace_of (prom_client w (VDict top) s))
     /\ ~ In (EvLog CRITICAL [Lit "Unable to create Weka Cluster: "; FmtExc exc])
            (trace_of (prom_client w (VDict top) s)))
  /\ (forall msg, exc = HTTPError 403 msg ->
        prom_client w (VDict top) s
        = (Ret None, s,
           pre ++ [EvLog CRITICAL
                     [Lit "Cluster returned permission error - is the userid level ReadOnly or above?"]])).
Proof.
  intros Hc He Hh Hi Hres Htok Hw pre.
  pose proof (prom_client_connect_failed w top c e hosts tok hs
                Hc He Hh Hi Hres Htok exc s Hw) as Hrun.
  split; intros msg ->.
  - assert (Hrun' : prom_client w (VDict top) s
             = (Ret None, s,
                pre ++ [EvLog CRITICAL msg_ssl_1; EvLog CRITICAL msg_ssl_2;
                        EvLog CRITICAL [Lit "Error is "; FmtExc (SSLError msg)]])).
    { rewrite Hrun. unfold pre. now rewrite <- app_assoc. }
    split; [exact Hrun'|]. rewrite Hrun'. unfold trace_of, pre. simpl snd.
    rewrite <- app_assoc.
    split; intros Hin; apply In_resolved_prefix in Hin as [[y Hy]|Hin];
      try discriminate; simpl in Hin; intuition discriminate.
  - rewrite Hrun. unfold pre. now rewrite <- app_assoc.
Qed.

(** C9. A configuration without [exporter.listen_port] passes the whole
    validation; the cluster object and the collector are constructed;
    then the read of line 115, outside any [try], raises [KeyError],
    which nothing catches. The HTTP server is never started. *)
Theorem missing_listen_port_surfaces_late (w : world) (top c e : dict)
    (hosts tok : value) (hs : list value) (h : cluster_obj)
    (coll : collector) s :
  dict_get top "cluster" = Some (VDict c) ->
  dict_get top "exporter" = Some (VDict e) ->
  dict_get c "hosts" = Some hosts ->
  py_iter hosts = inr hs ->
  (forall x, In x hs -> gethostbyname w x = None) ->
  dict_get c "auth_token_file" = Some tok ->
  WekaCluster w (connect_args_of c e hosts tok) = inr h ->
  Collector w (validated top c e) h = inr coll ->
  dict_get e "listen_port" = None ->
  preflight w (VDict top) s
  = (Ret (validated top c e), s, map EvGetHostByName hs)
  /\ prom_client w (VDict top) s
     = (Raise (KeyError "listen_port"), s,
        map EvGetHostByName hs
        ++ [EvLog INFO (msg_timeout (lookup_or e "timeout" (VInt 10)));
            EvWekaCluster (connect_args_of c e hosts tok);
            EvCollector (validated top c e) h])
  /\ (forall n, ~ In (EvStartHttpServer n)
                   (trace_of (prom_client w (VDict top) s))).
Proof.
  intros Hc He Hh Hi Hres Htok Hw Hcoll Hnone.
  assert (Hrun : prom_client w (VDict top) s
     = (Raise (KeyError "listen_port"), s,
        map EvGetHostByName hs
        ++ [EvLog INFO (msg_timeout (lookup_or e "timeout" (VInt 10)));
            EvWekaCluster (connect_args_of c e hosts tok);
            EvCollector (validated top c e) h])).
  { apply (prom_client_connected w top c e hosts tok hs Hc He Hh Hi Hres Htok h).
    - exact Hw.
    - now apply (serve_missing_port w top c e h coll Hcoll). }
  split; [|split; [exact Hrun|]].
  - apply (preflight_ok w top c hosts hs Hc Hh Hi e s He).
    now apply all_resolve_not_failed.
  - intros n Hin. rewrite Hrun in Hin. unfold trace_of in Hin. simpl snd in Hin.
    apply In_resolved_prefix in Hin as [[y Hy]|Hin]; [discriminate|].
    simpl in Hin. intuition discriminate.
Qed.

(** ** Logging set-up *)

(** The function completes when syslog is disabled or its socket can be
    connected. *)
Lemma configure_logging_run w verbosity disable_syslog s :
  (disable_syslog = false -> SysLogHandler_init w (syslogaddr w) = None) ->
  configure_logging w verbosity disable_syslog s
  = (Ret tt, configured w verbosity disable_syslog s,
     syslog_events w disable_syslog).
Proof.
  intros Hsys. unfold configure_logging, configured, syslog_events.
  destruct disable_syslog; cbn [negb].
  - reflexivity.
  - unfold attach_syslog, bind, lift_call. rewrite (Hsys eq_refl). cbn.
    now rewrite <- app_assoc.
Qed.

(** An unreachable syslog socket aborts the set-up before any level is
    set. *)
Lemma configure_logging_syslog_raises w verbosity s exc :
  SysLogHandler_init w (syslogaddr w) = Some exc ->
  res_of (configure_logging w verbosity false s) = Raise exc.
Proof.
  intros Hsys. unfold configure_logging, attach_syslog, bind, lift_call.
  rewrite Hsys. reflexivity.
Qed.

Lemma settings_for_ge_2 v :
  2 <= v ->
  settings_for v
  = {| loglevel := DEBUG;
       libloglevel := if 3 <=? v then DEBUG else ERROR;
       console_format := fmt_source;
       syslog_format := fmt_process |}.
Proof.
  intros Hv. unfold settings_for.
  destruct (v =? 1) eqn:E1; [lia|].
  destruct (v =? 2) eqn:E2.
  - apply Z.eqb_eq in E2. subst v. reflexivity.
  - destruct (v >? 2) eqn:E3; destruct (3 <=? v) eqn:E4; try reflexivity; lia.
Qed.

(** X24. For every verbosity of 2 or more, when the set-up completes
    (syslog disabled or its socket reachable), the root level is DEBUG
    and the console handler uses the file/line/function format. The
    loggers [wekalib.wekaapi] and [wekalib.wekacluster] are at DEBUG
    from verbosity 3 and at ERROR at verbosity 2. *)
Theorem verbosity_ge_2_levels (w : world) (v : Z) (disable_syslog : bool) s :
  2 <= v ->
  (disable_syslog = false -> SysLogHandler_init w (syslogaddr w) = None) ->
  let run v' := configure_logging w v' disable_syslog s in
  let lib := if 3 <=? v then DEBUG else ERROR in
  res_of (run v) = Ret tt
  /\ root_level (state_of (run v)) = DEBUG
  /\ root_handlers (state_of (run v))
     = root_handlers s
       ++ StreamHandler
            "%(filename)s:%(lineno)s:%(funcName)s():%(levelname)s:%(message)s"
       :: (if disable_syslog then []
           else [SysLogHandler (syslogaddr w)
                   "%(process)s:%(filename)s:%(lineno)s:%(funcName)s():%(levelname)s:%(message)s"])
  /\ logger_levels (state_of (run v)) !! "wekalib.wekaapi" = Some lib
  /\ logger_levels (state_of (run v)) !! "wekalib.wekacluster" = Some lib
  /\ logger_levels (state_of (run 0)) !! "wekalib.wekaapi" = Some ERROR
  /\ logger_levels (state_of (run 0)) !! "wekalib.wekacluster" = Some ERROR
  /\ logger_levels (state_of (run 1)) !! "wekalib.wekaapi" = Some INFO
  /\ logger_levels (state_of (run 1)) !! "wekalib.wekacluster" = Some INFO.
Proof.
  intros Hv Hsys run lib. unfold run.
  rewrite !(configure_logging_run w _ disable_syslog s Hsys).
  unfold res_of, state_of, configured. cbn [fst snd].
  rewrite (settings_for_ge_2 v Hv).
  cbn [root_level root_handlers logger_levels loglevel libloglevel
       console_format syslog_format].
  repeat split;
    repeat (rewrite lookup_insert_ne by discriminate);
    now rewrite lookup_insert_eq.
Qed.

(** ** Loading the configuration file *)

Lemma _load_config_run w path s :
  _load_config w path s
  = (as_result (load_outcome w path), s, trace_of (_load_config w path s)).
Proof.
  unfold _load_config, load_outcome, yaml_outcome, bind, emit, lift.
  destruct (open_file w path) as [exc|f]; [reflexivity|]. cbn.
  destruct (yaml_load_FullLoader w f) as [exc|v]; [|reflexivity].
  destruct exc; try reflexivity.
  cbn. now destruct (yaml_load_default w f).
Qed.

(** Only the file and the YAML library are touched by the loader. *)
Lemma _load_config_trace w path s ev :
  In ev (trace_of (_load_config w path s)) ->
  ev = EvOpen path \/ (exists b, ev = EvYamlLoad b)
  \/ (exists msg, ev = EvLog ERROR msg).
Proof.
  unfold _load_config, bind, emit, lift, trace_of.
  destruct (open_file w path) as [exc|f]; cbn; [intuition (subst; eauto)|].
  destruct (yaml_load_FullLoader w f) as [exc|v]; cbn.
  - destruct exc; cbn; try destruct (yaml_load_default w f); cbn;
      intuition (subst; eauto).
  - intuition (subst; eauto).
Qed.

(** C7, as the code has it. The loader fails exactly when [open] or the
    YAML library raises, with that exception; otherwise it returns the
    parsed value itself, mapping or not, with nothing added to it. The
    logging state is untouched. *)
Theorem loader_returns_parsed_value (w : world) (path : string) s :
  (forall exc, load_outcome w path = inl exc ->
     res_of (_load_config w path s) = Raise exc)
  /\ (forall v, load_outcome w path = inr v ->
        res_of (_load_config w path s) = Ret v)
  /\ (forall f exc, open_file w path = inr f ->
        yaml_load_FullLoader w f = inl exc ->
        match exc with
        | AttributeError =>
            res_of (_load_config w path s) = as_result (yaml_load_default w f)
        | _ =>
            res_of (_load_config w path s) = Raise exc
            /\ In (EvLog ERROR [Lit "Error reading config file: "; FmtExc exc])
                 (trace_of (_load_config w path s))
        end)
  /\ state_of (_load_config w path s) = s.
Proof.
  split; [|split; [|split]].
  - intros exc H. now rewrite _load_config_run, H.
  - intros v H. now rewrite _load_config_run, H.
  - intros f exc Hopen Hyaml.
    unfold _load_config, bind, emit, lift, res_of, trace_of.
    rewrite Hopen. cbn. rewrite Hyaml.
    destruct exc; cbn;
      try (split; [reflexivity|do 2 right; left; reflexivity]).
    now destruct (yaml_load_default w f).
  - now rewrite _load_config_run.
Qed.

(** ** The entry point *)

Section Main.

Variable w : world.
Variable a : args.

Hypothesis Hversion : version a = false.
Hypothesis Hsyslog :
  no_syslog a = false -> SysLogHandler_init w (syslogaddr w) = None.

Local Abbreviation s1 s := (configured w (verbosity a) (no_syslog a) s).

(** Lines 197-203, when [--version] was not given. *)
Lemma main_reaches_exists_check (k : M unit) s r s2 t2 :
  k (s1 s) = (r, s2, t2) ->
  (do _ <- emit EvSignalHandling;
   if version a then
     do _ <- emit (EvPrint (argv0 a ++ " version " ++ VERSION)%string);
     sys_exit 0
   else
     do _ <- configure_logging w (verbosity a) (no_syslog a);
     do _ <- emit (EvPathExists (configfile a));
     k) s
  = (r, s2,
     EvSignalHandling
     :: syslog_events w (no_syslog a) ++ EvPathExists (configfile a) :: t2).
Proof.
  intros Hk. apply run_bind_emit. rewrite Hversion.
  eapply run_bind; [now apply configure_logging_run|].
  now apply run_bind_emit.
Qed.

Lemma main_missing_file s :
  path_exists w (configfile a) = false ->
  main w a s
  = (Exit 1, s1 s,
     EvSignalHandling
     :: syslog_events w (no_syslog a)
     ++ [EvPathExists (configfile a);
         EvLog CRITICAL (msg_no_configfile (configfile a))]).
Proof.
  intros Hex. unfold main. apply main_reaches_exists_check.
  rewrite Hex. cbn [negb]. now apply run_bind_log.
Qed.

Lemma main_load_failed exc s :
  path_exists w (configfile a) = true ->
  load_outcome w (configfile a) = inl exc ->
  main w a s
  = (Ret tt, s1 s,
     EvSignalHandling
     :: syslog_events w (no_syslog a)
     ++ EvPathExists (configfile a)
     :: EvLog DEBUG [Lit "loading config file"]
     :: trace_of (_load_config w (configfile a) (s1 s))
     ++ [EvLog CRITICAL (msg_load_failed (configfile a) exc)]).
Proof.
  intros Hex Hload. unfold main. apply main_reaches_exists_check.
  rewrite Hex. cbn [negb]. apply run_bind_log.
  eapply run_bind.
  - apply run_attempt_raise. rewrite _load_config_run, Hload. reflexivity.
  - cbv beta iota. now apply run_bind_log.
Qed.

End Main.

(** C6. With [--version] the run prints the version line and ends in
    [sys.exit(0)]: the logging state is the one it started from, and
    neither [os.path.exists] nor [open] appears in the trace, whatever
    the file system holds. *)
Theorem version_flag_exits_first (w : world) (a : args) s :
  version a = true ->
  main w a s
  = (Exit 0, s,
     [EvSignalHandling; EvPrint (argv0 a ++ " version " ++ VERSION)%string])
  /\ exit_status (res_of (main w a s)) = Some 0
  /\ state_of (main w a s) = s
  /\ (forall p, ~ In (EvPathExists p) (trace_of (main w a s)))
  /\ (forall p, ~ In (EvOpen p) (trace_of (main w a s))).
Proof.
  intros Hv.
  assert (Hrun : main w a s
    = (Exit 0, s,
       [EvSignalHandling; EvPrint (argv0 a ++ " version " ++ VERSION)%string])).
  { unfold main. apply run_bind_emit. rewrite Hv. now apply run_bind_emit. }
  rewrite Hrun. repeat split; intros p Hin; simpl in Hin;
    intuition discriminate.
Qed.

(** C10. When the config file exists but the loader raises, [main] logs
    the critical message of line 211 and returns, so the interpreter
    exits with status 0; [prom_client] is not entered. When the file
    does not exist the run ends in [sys.exit(1)]. *)
Theorem load_failure_exits_0 (w : world) (a : args) (exc : exception) s :
  version a = false ->
  (no_syslog a = false -> SysLogHandler_init w (syslogaddr w) = None) ->
  path_exists w (configfile a) = true ->
  load_outcome w (configfile a) = inl exc ->
  res_of (main w a s) = Ret tt
  /\ exit_status (res_of (main w a s)) = Some 0
  /\ In (EvLog CRITICAL (msg_load_failed (configfile a) exc))
       (trace_of (main w a s))
  /\ (forall h, ~ In (EvGetHostByName h) (trace_of (main w a s)))
  /\ (forall w',
        (no_syslog a = false -> SysLogHandler_init w' (syslogaddr w') = None) ->
        path_exists w' (configfile a) = false ->
        exit_status (res_of (main w' a s)) = Some 1).
Proof.
  intros Hv Hsys Hex Hload.
  rewrite (main_load_failed w a Hv Hsys exc s Hex Hload).
  unfold res_of, trace_of. cbn [fst snd exit_status].
  split; [reflexivity|]. split; [reflexivity|]. split; [|split].
  - right. apply in_or_app. right. do 2 right.
    apply in_or_app. right. now left.
  - intros h Hin. destruct Hin as [Hin|Hin]; [discriminate|].
    apply in_app_or in Hin as [Hin|Hin].
    + unfold syslog_events in Hin. destruct (no_syslog a); simpl in Hin;
        intuition discriminate.
    + destruct Hin as [Hin|[Hin|Hin]]; try discriminate.
      apply in_app_or in Hin as [Hin|Hin].
      * apply _load_config_trace in Hin as [H|[[b H]|[m H]]]; discriminate.
      * simpl in Hin. intuition discriminate.
  - intros w' Hsys' Hex'.
    now rewrite (main_missing_file w' a Hv Hsys' s Hex').
Qed.

(** ** Concrete runs *)

Lemma missing_cluster_witness :
  prom_client quiet_world (VDict [("exporter", VDict example_exporter)])
    logging_init
  = (Raise (KeyError "cluster"), logging_init, []).
Proof.
  apply (missing_cluster_raises_KeyError quiet_world
           [("exporter", VDict example_exporter)] logging_init).
  reflexivity.
Defined.

Lemma validation_defaults_witness :
  exists top' c' e',
    preflight quiet_world (VDict example_config) logging_init
    = (Ret (VDict top'), logging_init, map EvGetHostByName example_hosts)
    /\ dict_get top' "cluster" = Some (VDict c')
    /\ dict_get top' "exporter" = Some (VDict e')
    /\ (forall k, k <> "cluster" -> k <> "exporter" ->
                  dict_get top' k = dict_get example_config k)
    /\ (forall k, dict_get c' k
                  = or_default (dict_get example_cluster k)
                      (dict_get cluster_defaults k))
    /\ (forall k, dict_get e' k
                  = or_default (dict_get example_exporter k)
                      (dict_get exporter_defaults k))
    /\ (dict_get example_exporter "timeout" = None ->
        dict_get e' "timeout" = Some (VInt 10))
    /\ (dict_get example_exporter "timeout" = Some (VInt 5) ->
        dict_get e' "timeout" = Some (VInt 5)).
Proof.
  apply (validation_applies_defaults quiet_world example_config
           example_cluster example_exporter (VList example_hosts)
           example_hosts logging_init
           eq_refl eq_refl eq_refl (fun _ _ => eq_refl) eq_refl).
Defined.


Lemma verbosity_ge_2_witness :
  root_level
    (state_of (configure_logging quiet_world 2 false logging_init)) = DEBUG
  /\ logger_levels
       (state_of (configure_logging quiet_world 2 false logging_init))
     !! "wekalib.wekaapi" = Some ERROR.
Proof.
  pose proof (verbosity_ge_2_levels quiet_world 2 false logging_init
                ltac:(lia) (fun _ => eq_refl)) as H.
  split; apply H.
Defined.

(** C4. At verbosity 2 the library loggers are at ERROR, as at
    verbosity 0, and not at the INFO of verbosity 1: the branch of line
    144 assigns no [libloglevel], unlike the branches of lines 139 and
    148, so the level goes ERROR, INFO, ERROR, DEBUG as the verbosity
    grows. *)
Lemma verbosity_2_library_loggers_at_ERROR :
  logger_levels
    (state_of (configure_logging quiet_world 2 true logging_init))
  !! "wekalib.wekaapi" = Some ERROR
  /\ logger_levels
       (state_of (configure_logging quiet_world 1 true logging_init))
     !! "wekalib.wekaapi" = Some INFO
  /\ logger_levels
       (state_of (configure_logging quiet_world 2 true logging_init))
     !! "wekalib.wekaapi"
     <> logger_levels
          (state_of (configure_logging quiet_world 1 true logging_init))
        !! "wekalib.wekaapi".
Proof.
  assert (H2 : logger_levels
    (state_of (configure_logging quiet_world 2 true logging_init))
    !! "wekalib.wekaapi" = Some ERROR) by (vm_compute; reflexivity).
  assert (H1 : logger_levels
    (state_of (configure_logging quiet_world 1 true logging_init))
    !! "wekalib.wekaapi" = Some INFO) by (vm_compute; reflexivity).
  split; [exact H2|]. split; [exact H1|].
  rewrite H2, H1. discriminate.
Qed.

Lemma server_start_failure_witness :
  exists t,
    prom_client
      (example_world all_resolve (inr VNone) (inr 3%nat) (Some port_in_use))
      (VDict example_config) logging_init
    = (Ret (Some 1), logging_init, t)
    /\ forall x, ~ In (EvRegister x) t.
Proof.
  pose proof (server_start_failure_returns_1
                (example_world all_resolve (inr VNone) (inr 3%nat)
                   (Some port_in_use))
                example_config example_cluster example_exporter
                (VList example_hosts) (VStr "auth-token.json") (VInt 8101)
                example_hosts 3%nat 7%nat 8101 port_in_use logging_init
                eq_refl eq_refl eq_refl eq_refl (fun _ _ => eq_refl)
                eq_refl eq_refl eq_refl eq_refl eq_refl eq_refl)
    as (Hrun & Hreg & _).
  eexists. split; [exact Hrun|exact Hreg].
Defined.

Lemma version_flag_witness :
  main (example_world all_resolve (inr VNone) (inr 3%nat) None)
    (example_args 0 true) logging_init
  = (Exit 0, logging_init,
     [EvSignalHandling; EvPrint "quota-export.py version 2025-06-25"]).
Proof.
  exact (proj1 (version_flag_exits_first
           (example_world all_resolve (inr VNone) (inr 3%nat) None)
           (example_args 0 true) logging_init eq_refl)).
Defined.

(** A document that is a list, not a mapping, is loaded without error. *)
Lemma loader_accepts_non_mapping :
  res_of (_load_config
            (example_world all_resolve (inr (VList [VStr "weka01"]))
               (inr 3%nat) None)
            "./quota-export.yml" logging_init)
  = Ret (VList [VStr "weka01"])
  /\ forall exc,
       res_of (_load_config
                 (example_world all_resolve (inr (VList [VStr "weka01"]))
                    (inr 3%nat) None)
                 "./quota-export.yml" logging_init)
       <> Raise exc.
Proof. split; [reflexivity|discriminate]. Qed.

Lemma loader_witness :
  res_of (_load_config
            (example_world all_resolve (inl yaml_scanner_error) (inr 3%nat) None)
            "./quota-export.yml" logging_init)
  = Raise yaml_scanner_error
  /\ res_of (_load_config quiet_world "./quota-export.yml" logging_init)
     = Ret (VDict example_config).
Proof.
  split.
  - apply (proj1 (loader_returns_parsed_value
                    (example_world all_resolve (inl yaml_scanner_error)
                       (inr 3%nat) None)
                    "./quota-export.yml" logging_init)
             yaml_scanner_error eq_refl).
  - apply (proj1 (proj2 (loader_returns_parsed_value quiet_world
                           "./quota-export.yml" logging_init))
             (VDict example_config) eq_refl).
Defined.

Lemma ssl_error_witness :
  (res_of (prom_client
             (example_world all_resolve (inr VNone)
                (inl (SSLError "WRONG_VERSION_NUMBER")) None)
             (VDict example_config) logging_init) = Ret None
   /\ In (EvLog CRITICAL
           [Lit "SSL Error: Only weka v3.10 and above support https, and force_https is set in config file."])
        (trace_of (prom_client
                     (example_world all_resolve (inr VNone)
                        (inl (SSLError "WRONG_VERSION_NUMBER")) None)
                     (VDict example_config) logging_init)))
  /\ (res_of (prom_client
                (example_world all_resolve (inr VNone)
                   (inl (HTTPError 403 "Forbidden")) None)
                (VDict example_config) logging_init) = Ret None
      /\ In (EvLog CRITICAL
              [Lit "Cluster returned permission error - is the userid level ReadOnly or above?"])
           (trace_of (prom_client
                        (example_world all_resolve (inr VNone)
                           (inl (HTTPError 403 "Forbidden")) None)
                        (VDict example_config) logging_init))).
Proof.
  split.
  - destruct (proj1 (ssl_error_takes_ssl_branch
              (example_world all_resolve (inr VNone)
                 (inl (SSLError "WRONG_VERSION_NUMBER")) None)
              example_config example_cluster example_exporter
              (VList example_hosts) (VStr "auth-token.json") example_hosts
              (SSLError "WRONG_VERSION_NUMBER") logging_init
              eq_refl eq_refl eq_refl eq_refl (fun _ _ => eq_refl)
              eq_refl eq_refl) "WRONG_VERSION_NUMBER" eq_refl) as [Hrun _].
    rewrite Hrun. split; [reflexivity|].
    unfold trace_of. simpl. auto 10.
  - rewrite (proj2 (ssl_error_takes_ssl_branch
              (example_world all_resolve (inr VNone)
                 (inl (HTTPError 403 "Forbidden")) None)
              example_config example_cluster example_exporter
              (VList example_hosts) (VStr "auth-token.json") example_hosts
              (HTTPError 403 "Forbidden") logging_init
              eq_refl eq_refl eq_refl eq_refl (fun _ _ => eq_refl)
              eq_refl eq_refl) "Forbidden" eq_refl).
    split; [reflexivity|].
    unfold trace_of. simpl. auto 10.
Defined.

Lemma missing_listen_port_witness :
  preflight quiet_world (VDict example_config_no_port) logging_init
  = (Ret (validated example_config_no_port example_cluster
            [("timeout", VInt 5)]),
     logging_init, map EvGetHostByName example_hosts)
  /\ res_of (prom_client quiet_world (VDict example_config_no_port)
               logging_init)
     = Raise (KeyError "listen_port").
Proof.
  destruct (missing_listen_port_surfaces_late quiet_world
              example_config_no_port example_cluster [("timeout", VInt 5)]
              (VList example_hosts) (VStr "auth-token.json") example_hosts
              3%nat 7%nat logging_init
              eq_refl eq_refl eq_refl eq_refl (fun _ _ => eq_refl)
              eq_refl eq_refl eq_refl eq_refl) as (Hpre & Hrun & _).
  split; [exact Hpre|]. now rewrite Hrun.
Defined.

Lemma load_failure_witness :
  exit_status
    (res_of (main (example_world all_resolve (inl yaml_scanner_error)
                     (inr 3%nat) None)
               (example_args 1 false) logging_init))
  = Some 0.
Proof.
  exact (proj1 (proj2 (load_failure_exits_0
           (example_world all_resolve (inl yaml_scanner_error) (inr 3%nat) None)
           (example_args 1 false) yaml_scanner_error logging_init
           eq_refl (fun _ => eq_refl) eq_refl eq_refl))).
Defined.

(** * Further properties of the code *)

(** ** Validation *)

Lemma with_default_present sec key dflt :
  dict_mem sec key = true -> with_default sec key dflt = sec.
Proof. intros H. unfold with_default. now rewrite H. Qed.

(** After defaulting every optional key is there. *)
Lemma cluster_defaulted_mem c k :
  dict_mem cluster_defaults k = true -> dict_mem (cluster_defaulted c) k = true.
Proof.
  unfold dict_mem. rewrite cluster_defaulted_get.
  destruct (dict_get c k); [reflexivity|].
  now destruct (dict_get cluster_defaults k).
Qed.

Lemma exporter_defaulted_mem e k :
  dict_mem exporter_defaults k = true -> dict_mem (exporter_defaulted e) k = true.
Proof.
  unfold dict_mem. rewrite exporter_defaulted_get.
  destruct (dict_get e k); [reflexivity|].
  now destruct (dict_get exporter_defaults k).
Qed.

Lemma cluster_defaulted_complete c :
  has_all_keys c cluster_defaults = true -> cluster_defaulted c = c.
Proof.
  unfold has_all_keys, cluster_defaults. cbn [forallb fst].
  intros H. repeat (apply andb_prop in H as [? H]).
  unfold cluster_defaulted.
  rewrite (with_default_present c "force_https") by assumption.
  rewrite (with_default_present c "filesystems") by assumption.
  rewrite (with_default_present c "verify_cert") by assumption.
  now rewrite (with_default_present c "mgmt_port") by assumption.
Qed.

Lemma exporter_defaulted_complete e :
  has_all_keys e exporter_defaults = true -> exporter_defaulted e = e.
Proof.
  unfold has_all_keys, exporter_defaults. cbn [forallb fst].
  intros H. repeat (apply andb_prop in H as [? H]).
  unfold exporter_defaulted.
  rewrite (with_default_present e "timeout") by assumption.
  rewrite (with_default_present e "backends_only") by assumption.
  now rewrite (with_default_present e "exceeded_only") by assumption.
Qed.

Lemma cluster_defaulted_has_all c :
  has_all_keys (cluster_defaulted c) cluster_defaults = true.
Proof.
  unfold has_all_keys. apply forallb_forall. intros [k v] Hin.
  apply cluster_defaulted_mem. unfold dict_mem. cbn [fst].
  unfold cluster_defaults in *. simpl in Hin.
  destruct Hin as [[= <- <-]|[[= <- <-]|[[= <- <-]|[[= <- <-]|[]]]]];
    reflexivity.
Qed.

Lemma exporter_defaulted_has_all e :
  has_all_keys (exporter_defaulted e) exporter_defaults = true.
Proof.
  unfold has_all_keys. apply forallb_forall. intros [k v] Hin.
  apply exporter_defaulted_mem. unfold dict_mem. cbn [fst].
  unfold exporter_defaults in *. simpl in Hin.
  destruct Hin as [[= <- <-]|[[= <- <-]|[[= <- <-]|[]]]]; reflexivity.
Qed.

Lemma validated_complete top c e :
  dict_get top "cluster" = Some (VDict c) ->
  dict_get top "exporter" = Some (VDict e) ->
  cluster_defaulted c = c -> exporter_defaulted e = e ->
  validated top c e = VDict top.
Proof.
  intros Hc He Hc' He'. unfold validated. rewrite Hc', He'.
  rewrite (dict_set_same top "cluster" _ Hc).
  now rewrite (dict_set_same top "exporter" _ He).
Qed.

(** Either validation stops before the loop of line 41 with an empty
    trace, or the configuration is a mapping whose [cluster] stanza is a
    mapping with iterable [hosts]. *)
Lemma preflight_trace_cases w config s :
  trace_of (preflight w config s) = []
  \/ exists top c hosts hs,
       config = VDict top /\ dict_get top "cluster" = Some (VDict c)
       /\ dict_get c "hosts" = Some hosts /\ py_iter hosts = inr hs.
Proof.
  assert (Hraise : forall exc,
            lift (py_getitem config "cluster") s = (Raise exc, s, []) ->
            trace_of (preflight w config s) = []).
  { intros exc H. unfold preflight. now rewrite (run_bind_raise _ _ _ _ _ _ H). }
  destruct config as [| | | | |top]; try (left; now apply (Hraise TypeError)).
  destruct (dict_get top "cluster") as [cl|] eqn:Hc;
    [|left; apply (Hraise (KeyError "cluster")); unfold py_getitem;
      now rewrite Hc].
  clear Hraise.
  assert (Hget : lift (py_getitem (VDict top) "cluster") s = (Ret cl, s, []))
    by (unfold py_getitem; now rewrite Hc).
  assert (Hraise : forall exc,
            lift (py_getitem cl "hosts") s = (Raise exc, s, []) ->
            trace_of (preflight w (VDict top) s) = []).
  { intros exc H. unfold preflight. rewrite (run_bind_pure _ _ _ _ Hget).
    now rewrite (run_bind_raise _ _ _ _ _ _ H). }
  destruct cl as [| | | | |c]; try (left; now apply (Hraise TypeError)).
  destruct (dict_get c "hosts") as [hosts|] eqn:Hh;
    [|left; apply (Hraise (KeyError "hosts")); unfold py_getitem;
      now rewrite Hh].
  clear Hraise.
  destruct (py_iter hosts) as [exc|hs] eqn:Hi.
  - left. unfold preflight. rewrite (run_bind_pure _ _ _ _ Hget).
    rewrite (run_bind_pure _ _ s hosts)
      by (unfold py_getitem; now rewrite Hh).
    now rewrite (run_bind_raise _ _ s exc s []) by now rewrite Hi.
  - right. now exists top, c, hosts, hs.
Qed.

Section PreflightMore.

Variable w : world.
Variables (top c : dict) (hosts : value) (hs : list value).

Hypothesis Hcluster : dict_get top "cluster" = Some (VDict c).
Hypothesis Hhosts : dict_get c "hosts" = Some hosts.
Hypothesis Hiter : py_iter hosts = inr hs.

(** What validation leaves in the trace: the lookups, one per item of
    [hosts], their messages, and at most one closing message. *)
Lemma preflight_trace_shape s :
  exists t,
    trace_of (preflight w (VDict top) s) = flat_map (resolve_events w) hs ++ t
    /\ (t = [] \/ exists lvl msg, t = [EvLog lvl msg]).
Proof.
  destruct (existsb (failed w) hs) eqn:Hres.
  - rewrite (preflight_resolution_failure w top c hosts hs
               Hcluster Hhosts Hiter s Hres).
    eexists. split; [reflexivity|]. right. eauto.
  - destruct ((if dict_mem top "exporter" then apply_defaults (VDict top)
               else do _ <- log ERROR msg_exporter_missing; sys_exit 1) s)
      as [[r s2] t] eqn:Hk.
    rewrite (preflight_resolved w top c hosts hs Hcluster Hhosts Hiter
               s r s2 t Hres Hk).
    rewrite (all_resolved_events w hs Hres).
    exists t. split; [reflexivity|].
    destruct (dict_mem top "exporter").
    + left. pose proof (silent_apply_defaults (VDict top) s) as Hsil.
      rewrite Hk in Hsil. exact Hsil.
    + right. injection Hk as _ _ <-. eauto.
Qed.

Lemma preflight_lookups s :
  resolved_hosts (trace_of (preflight w (VDict top) s)) = hs.
Proof.
  destruct (preflight_trace_shape s) as (t & -> & Ht).
  rewrite resolved_hosts_app, resolved_hosts_events.
  destruct Ht as [->|(lvl & msg & ->)]; apply app_nil_r.
Qed.

End PreflightMore.

(** X1. With the [cluster] stanza in place and every host resolved, a
    configuration without the [exporter] stanza is rejected: the error of
    line 58 is logged after the lookups and the run ends in
    [sys.exit(1)]. *)
Theorem missing_exporter_exits_1 (w : world) (top c : dict) (hosts : value)
    (hs : list value) s :
  dict_get top "cluster" = Some (VDict c) ->
  dict_get c "hosts" = Some hosts ->
  py_iter hosts = inr hs ->
  (forall h, In h hs -> gethostbyname w h = None) ->
  dict_get top "exporter" = None ->
  prom_client w (VDict top) s
  = (Exit 1, s, map EvGetHostByName hs ++ [EvLog ERROR msg_exporter_missing]).
Proof.
  intros Hc Hh Hi Hres He. unfold prom_client. apply run_bind_exit.
  apply (preflight_resolved w top c hosts hs Hc Hh Hi).
  - now apply all_resolve_not_failed.
  - unfold dict_mem. rewrite He. now apply run_bind_log.
Qed.

(** X2. A configuration that sets every optional key itself comes out
    of validation exactly as it went in. *)
Theorem validation_keeps_complete_configuration (w : world) (top c e : dict)
    (hosts : value) (hs : list value) s :
  dict_get top "cluster" = Some (VDict c) ->
  dict_get top "exporter" = Some (VDict e) ->
  dict_get c "hosts" = Some hosts ->
  py_iter hosts = inr hs ->
  (forall h, In h hs -> gethostbyname w h = None) ->
  has_all_keys c cluster_defaults = true ->
  has_all_keys e exporter_defaults = true ->
  preflight w (VDict top) s = (Ret (VDict top), s, map EvGetHostByName hs).
Proof.
  intros Hc He Hh Hi Hres Hck Hek.
  rewrite <- (validated_complete top c e Hc He
                (cluster_defaulted_complete c Hck)
                (exporter_defaulted_complete e Hek)) at 2.
  apply (preflight_ok w top c hosts hs Hc Hh Hi e s He).
  now apply all_resolve_not_failed.
Qed.

(** X3. Validation is idempotent: run on its own result, it returns
    that result unchanged. *)
Theorem validation_idempotent (w : world) (top c e : dict)
    (hosts : value) (hs : list value) s :
  dict_get top "cluster" = Some (VDict c) ->
  dict_get top "exporter" = Some (VDict e) ->
  dict_get c "hosts" = Some hosts ->
  py_iter hosts = inr hs ->
  (forall h, In h hs -> gethostbyname w h = None) ->
  exists config',
    preflight w (VDict top) s = (Ret config', s, map EvGetHostByName hs)
    /\ preflight w config' s = (Ret config', s, map EvGetHostByName hs).
Proof.
  intros Hc He Hh Hi Hres.
  pose proof (all_resolve_not_failed w hs Hres) as Hnf.
  exists (validated top c e). split.
  - now apply (preflight_ok w top c hosts hs Hc Hh Hi e s He).
  - unfold validated.
    set (top' := dict_set (dict_set top "cluster" (VDict (cluster_defaulted c)))
                   "exporter" (VDict (exporter_defaulted e))).
    assert (Hc' : dict_get top' "cluster" = Some (VDict (cluster_defaulted c))).
    { unfold top'. rewrite dict_get_set_ne by discriminate.
      apply dict_get_set_eq. }
    assert (He' : dict_get top' "exporter" = Some (VDict (exporter_defaulted e)))
      by apply dict_get_set_eq.
    rewrite <- (validated_complete top' _ _ Hc' He'
                  (cluster_defaulted_complete _ (cluster_defaulted_has_all c))
                  (exporter_defaulted_complete _ (exporter_defaulted_has_all e)))
      at 2.
    apply (preflight_ok w top' (cluster_defaulted c) hosts hs Hc'
             (cluster_defaulted_explicit c "hosts" hosts Hh) Hi
             (exporter_defaulted e) s He' Hnf).
Qed.

(** X4. When [cluster.hosts] is a single string instead of a list, the
    loop of line 41 iterates its characters: [socket.gethostbyname] is
    called once per character, in order, whatever else happens. *)
Theorem string_hosts_resolved_by_character (w : world) (top c : dict)
    (name : string) s :
  dict_get top "cluster" = Some (VDict c) ->
  dict_get c "hosts" = Some (VStr name) ->
  resolved_hosts (trace_of (preflight w (VDict top) s)) = chars name.
Proof.
  intros Hc Hh.
  apply (preflight_lookups w top c (VStr name) (chars name) Hc Hh eq_refl).
Qed.

(** X5. Validation makes no call but hostname lookups: for every
    configuration and environment its trace holds only
    [socket.gethostbyname] calls and log records. *)
Theorem validation_only_resolves (w : world) (config : value) s (ev : event) :
  In ev (trace_of (preflight w config s)) -> is_lookup_or_log ev = true.
Proof.
  destruct (preflight_trace_cases w config s)
    as [->|(top & c & hosts & hs & -> & Hc & Hh & Hi)]; [intros []|].
  destruct (preflight_trace_shape w top c hosts hs Hc Hh Hi s) as (t & -> & Ht).
  intros Hin. apply in_app_or in Hin as [Hin|Hin].
  - apply in_flat_map in Hin as (host & _ & Hin). unfold resolve_events in Hin.
    destruct (gethostbyname w host) as [[]|]; simpl in Hin;
      intuition (subst; reflexivity).
  - destruct Ht as [->|(lvl & msg & ->)]; [destruct Hin|].
    destruct Hin as [<-|[]]. reflexivity.
Qed.

(** ** The runtime *)

Lemma run_bind_forever {A B} (m : M A) (f : A -> M B) s s1 t1 :
  m s = (Forever, s1, t1) -> bind m f s = (Forever, s1, t1).
Proof. intros Hm. unfold bind. now rewrite Hm. Qed.

(** The handlers of lines 93-107 only log, at CRITICAL. *)
Lemma on_connect_error_logs exc s ev :
  In ev (trace_of (on_connect_error exc s)) -> exists msg, ev = EvLog CRITICAL msg.
Proof.
  destruct exc as [| | | | |code msg| |]; unfold on_connect_error;
    try destruct (code =? 403); simpl; intuition (subst; eauto).
Qed.

Section ServeMore.

Variable w : world.
Variables (top c e : dict) (h : cluster_obj).

Local Abbreviation config := (validated top c e).

(** The collector is built outside any [try]. *)
Lemma serve_collector_raises exc s :
  Collector w config h = inl exc ->
  serve w config h s = (Raise exc, s, [EvCollector config h]).
Proof.
  intros Hcoll. unfold serve. apply run_bind_emit.
  apply run_bind_raise. now rewrite Hcoll.
Qed.

Variables (coll : collector) (port : value).
Hypothesis Hcoll : Collector w config h = inr coll.
Hypothesis Hport : dict_get e "listen_port" = Some port.

Lemma get2_listen_port s :
  get2 config "exporter" "listen_port" s = (Ret port, s, []).
Proof. apply get2_exporter. now apply exporter_defaulted_explicit. Qed.

Lemma serve_reaches_start
    (k : collector -> exception + unit -> M (option Z)) s x t1 r s2 t2 :
  attempt (start_server w config) s = (Ret x, s, t1) ->
  k coll x s = (r, s2, t2) ->
  (do _ <- emit (EvCollector config h);
   do coll' <- lift (Collector w config h);
   do port <- get2 config "exporter" "listen_port";
   do _ <- log INFO [Lit "starting http server on port "; Fmt port];
   do r <- attempt (start_server w config);
   k coll' r) s
  = (r, s2,
     EvCollector config h
     :: EvLog INFO [Lit "starting http server on port "; Fmt port]
     :: t1 ++ t2).
Proof.
  intros Hstart Hk. apply run_bind_emit.
  rewrite (run_bind_pure _ _ s coll) by now rewrite Hcoll.
  rewrite (run_bind_pure _ _ s port) by apply get2_listen_port.
  apply run_bind_log. eapply run_bind; eassumption.
Qed.

(** [int(...)] sits inside the [try] of line 116: when it raises, the
    server is not started and the handler of line 118 runs. *)
Lemma serve_int_failed exc s :
  py_int w port = inl exc ->
  serve w config h s
  = (Ret (Some 1), s,
     [EvCollector config h;
      EvLog INFO [Lit "starting http server on port "; Fmt port];
      EvLog CRITICAL (msg_server_failed port exc)]).
Proof.
  intros Hint. unfold serve.
  change [EvCollector config h;
          EvLog INFO [Lit "starting http server on port "; Fmt port];
          EvLog CRITICAL (msg_server_failed port exc)]
    with (EvCollector config h
          :: EvLog INFO [Lit "starting http server on port "; Fmt port]
          :: [] ++ [EvLog CRITICAL (msg_server_failed port exc)]).
  apply (serve_reaches_start (fun coll' r => match r with
           | inl exc =>
               do port <- get2 config "exporter" "listen_port";
               do _ <- log CRITICAL (msg_server_failed port exc);
               ret (Some 1)
           | inr _ =>
               do _ <- emit (EvRegister coll');
               do _ <- lift_call (registry_register w coll');
               forever
           end) s (inl exc)).
  - apply run_attempt_raise. unfold start_server.
    rewrite (run_bind_pure _ _ s port) by apply get2_listen_port.
    apply run_bind_raise. now rewrite Hint.
  - cbv beta iota.
    rewrite (run_bind_pure _ _ s port) by apply get2_listen_port.
    now apply run_bind_log.
Qed.

(** The server started: the collector is registered next, and the
    function then sleeps for ever, unless the registry refuses. *)
Lemma serve_started n s :
  py_int w port = inr n ->
  start_http_server w n = None ->
  serve w config h s
  = (match registry_register w coll with
     | None => Forever
     | Some exc => Raise exc
     end, s,
     [EvCollector config h;
      EvLog INFO [Lit "starting http server on port "; Fmt port];
      EvStartHttpServer n;
      EvRegister coll]).
Proof.
  intros Hint Hstart. unfold serve.
  change [EvCollector config h;
          EvLog INFO [Lit "starting http server on port "; Fmt port];
          EvStartHttpServer n; EvRegister coll]
    with (EvCollector config h
          :: EvLog INFO [Lit "starting http server on port "; Fmt port]
          :: [EvStartHttpServer n] ++ [EvRegister coll]).
  apply (serve_reaches_start (fun coll' r => match r with
           | inl exc =>
               do port <- get2 config "exporter" "listen_port";
               do _ <- log CRITICAL (msg_server_failed port exc);
               ret (Some 1)
           | inr _ =>
               do _ <- emit (EvRegister coll');
               do _ <- lift_call (registry_register w coll');
               forever
           end) s (inr tt)).
  - apply run_attempt_ret. unfold start_server.
    rewrite (run_bind_pure _ _ s port) by apply get2_listen_port.
    rewrite (run_bind_pure _ _ s n) by now rewrite Hint.
    apply run_bind_emit. now rewrite Hstart.
  - cbv beta iota. apply run_bind_emit.
    now destruct (registry_register w coll).
Qed.

End ServeMore.

Section ConnectMore.

Variable w : world.
Variables (top c e : dict) (hosts : value).

Hypothesis Hhosts : dict_get c "hosts" = Some hosts.
Hypothesis Hnotok : dict_get c "auth_token_file" = None.

(** The arguments are evaluated inside the [try]: a missing
    [auth_token_file] raises there, before the constructor is called. *)
Lemma connect_missing_token s :
  connect w (validated top c e) s = (Raise (KeyError "auth_token_file"), s, []).
Proof.
  unfold connect.
  rewrite (run_bind_pure _ _ s hosts)
    by (apply get2_cluster; now apply cluster_defaulted_explicit).
  apply run_bind_raise. apply get2_cluster_missing.
  now rewrite cluster_defaulted_get, Hnotok.
Qed.

Lemma runtime_missing_token s :
  runtime w (validated top c e) s
  = (Ret None, s,
     [EvLog INFO (msg_timeout (lookup_or e "timeout" (VInt 10)));
      EvLog CRITICAL [Lit "Unable to create Weka Cluster: ";
                      FmtExc (KeyError "auth_token_file")];
      EvLog CRITICAL [FmtTraceback]]).
Proof.
  unfold runtime.
  rewrite (run_bind_pure _ _ s (lookup_or e "timeout" (VInt 10)))
    by (apply get2_exporter; now apply exporter_defaulted_lookup).
  apply run_bind_log.
  change [EvLog CRITICAL [Lit "Unable to create Weka Cluster: ";
                          FmtExc (KeyError "auth_token_file")];
          EvLog CRITICAL [FmtTraceback]]
    with ([] ++ [EvLog CRITICAL [Lit "Unable to create Weka Cluster: ";
                                 FmtExc (KeyError "auth_token_file")];
                 EvLog CRITICAL [FmtTraceback]]).
  eapply run_bind.
  - apply run_attempt_raise. apply connect_missing_token.
  - reflexivity.
Qed.

End ConnectMore.

(** X6. An empty [cluster.hosts] list is not rejected: validation
    passes without a single lookup and [WekaCluster] is called with the
    empty list. *)
Theorem empty_hosts_accepted (w : world) (top c e : dict) (tok : value) s :
  dict_get top "cluster" = Some (VDict c) ->
  dict_get top "exporter" = Some (VDict e) ->
  dict_get c "hosts" = Some (VList []) ->
  dict_get c "auth_token_file" = Some tok ->
  preflight w (VDict top) s = (Ret (validated top c e), s, [])
  /\ exists r s2 t,
       prom_client w (VDict top) s
       = (r, s2,
          EvLog INFO (msg_timeout (lookup_or e "timeout" (VInt 10)))
          :: EvWekaCluster (connect_args_of c e (VList []) tok) :: t).
Proof.
  intros Hc He Hh Htok.
  assert (Hres : forall x, In x (@nil value) -> gethostbyname w x = None)
    by intros x [].
  split.
  - now apply (preflight_ok w top c (VList []) [] Hc Hh eq_refl e s He).
  - destruct (WekaCluster w (connect_args_of c e (VList []) tok))
      as [exc|h] eqn:Hw.
    + do 3 eexists.
      apply (prom_client_connect_failed w top c e (VList []) tok []
               Hc He Hh eq_refl Hres Htok exc s Hw).
    + destruct (serve w (validated top c e) h s) as [[r s2] t] eqn:Hserve.
      exists r, s2, t.
      apply (prom_client_connected w top c e (VList []) tok []
               Hc He Hh eq_refl Hres Htok h s r s2 t Hw Hserve).
Qed.

(** X7. Without [cluster.auth_token_file] the constructor is never
    called: the [KeyError] raised while its arguments are evaluated is
    caught by the last handler, which logs it with a traceback, and the
    function returns [None]. *)
Theorem missing_auth_token_file_is_caught (w : world) (top c e : dict)
    (hosts : value) (hs : list value) s :
  dict_get top "cluster" = Some (VDict c) ->
  dict_get top "exporter" = Some (VDict e) ->
  dict_get c "hosts" = Some hosts ->
  py_iter hosts = inr hs ->
  (forall x, In x hs -> gethostbyname w x = None) ->
  dict_get c "auth_token_file" = None ->
  prom_client w (VDict top) s
  = (Ret None, s,
     map EvGetHostByName hs
     ++ [EvLog INFO (msg_timeout (lookup_or e "timeout" (VInt 10)));
         EvLog CRITICAL [Lit "Unable to create Weka Cluster: ";
                         FmtExc (KeyError "auth_token_file")];
         EvLog CRITICAL [FmtTraceback]]).
Proof.
  intros Hc He Hh Hi Hres Hnotok.
  apply (prom_client_validated w top c e hosts hs Hc He Hh Hi Hres).
  now apply (runtime_missing_token w top c e hosts).
Qed.

(** X8. After a failed cluster connection nothing else is started: the
    function returns [None] and neither the collector is built, nor the
    HTTP server started, nor anything registered. *)
Theorem connect_failure_stops_startup (w : world) (top c e : dict)
    (hosts tok : value) (hs : list value) (exc : exception) s :
  dict_get top "cluster" = Some (VDict c) ->
  dict_get top "exporter" = Some (VDict e) ->
  dict_get c "hosts" = Some hosts ->
  py_iter hosts = inr hs ->
  (forall x, In x hs -> gethostbyname w x = None) ->
  dict_get c "auth_token_file" = Some tok ->
  WekaCluster w (connect_args_of c e hosts tok) = inl exc ->
  res_of (prom_client w (VDict top) s) = Ret None
  /\ (forall cfg h, ~ In (EvCollector cfg h) (trace_of (prom_client w (VDict top) s)))
  /\ (forall n, ~ In (EvStartHttpServer n) (trace_of (prom_client w (VDict top) s)))
  /\ (forall x, ~ In (EvRegister x) (trace_of (prom_client w (VDict top) s))).
Proof.
  intros Hc He Hh Hi Hres Htok Hw.
  rewrite (prom_client_connect_failed w top c e hosts tok hs
             Hc He Hh Hi Hres Htok exc s Hw).
  unfold res_of, trace_of. cbn [fst snd].
  assert (Hev : forall ev,
            In ev (map EvGetHostByName hs
                   ++ EvLog INFO (msg_timeout (lookup_or e "timeout" (VInt 10)))
                   :: EvWekaCluster (connect_args_of c e hosts tok)
                   :: snd (on_connect_error exc s)) ->
            is_lookup_or_log ev = true \/ exists a, ev = EvWekaCluster a).
  { intros ev Hin. apply In_resolved_prefix in Hin as [[x ->]|Hin];
      [now left|].
    destruct Hin as [<-|[<-|Hin]]; [now left|right; eauto|].
    apply on_connect_error_logs in Hin as [msg ->]. now left. }
  split; [reflexivity|].
  repeat split; intros; intros Hin; apply Hev in Hin as [Hin|[a Hin]];
    discriminate.
Qed.

(** X9. An [HTTPError] whose code is not 403 gets the HTTP-error
    message of line 97, not the permission message, and a bare return. *)
Theorem http_error_other_than_403 (w : world) (top c e : dict)
    (hosts tok : value) (hs : list value) (code : Z) (msg : string) s :
  dict_get top "cluster" = Some (VDict c) ->
  dict_get top "exporter" = Some (VDict e) ->
  dict_get c "hosts" = Some hosts ->
  py_iter hosts = inr hs ->
  (forall x, In x hs -> gethostbyname w x = None) ->
  dict_get c "auth_token_file" = Some tok ->
  WekaCluster w (connect_args_of c e hosts tok) = inl (HTTPError code msg) ->
  code <> 403 ->
  prom_client w (VDict top) s
  = (Ret None, s,
     map EvGetHostByName hs
     ++ [EvLog INFO (msg_timeout (lookup_or e "timeout" (VInt 10)));
         EvWekaCluster (connect_args_of c e hosts tok);
         EvLog CRITICAL [Lit "Cluster returned HTTP error ";
                         FmtExc (HTTPError code msg); Lit "; aborting"]]).
Proof.
  intros Hc He Hh Hi Hres Htok Hw Hcode.
  rewrite (prom_client_connect_failed w top c e hosts tok hs
             Hc He Hh Hi Hres Htok _ s Hw).
  unfold on_connect_error. apply Z.eqb_neq in Hcode. now rewrite Hcode.
Qed.

(** X10. A [listen_port] that [int] cannot convert is handled like a
    server that does not start: the critical message of line 119, a
    return of 1, and no call of [start_http_server]. *)
Theorem bad_listen_port_returns_1 (w : world) (top c e : dict)
    (hosts tok port : value) (hs : list value) (h : cluster_obj)
    (coll : collector) (exc : exception) s :
  dict_get top "cluster" = Some (VDict c) ->
  dict_get top "exporter" = Some (VDict e) ->
  dict_get c "hosts" = Some hosts ->
  py_iter hosts = inr hs ->
  (forall x, In x hs -> gethostbyname w x = None) ->
  dict_get c "auth_token_file" = Some tok ->
  WekaCluster w (connect_args_of c e hosts tok) = inr h ->
  Collector w (validated top c e) h = inr coll ->
  dict_get e "listen_port" = Some port ->
  py_int w port = inl exc ->
  prom_client w (VDict top) s
  = (Ret (Some 1), s,
     map EvGetHostByName hs
     ++ [EvLog INFO (msg_timeout (lookup_or e "timeout" (VInt 10)));
         EvWekaCluster (connect_args_of c e hosts tok);
         EvCollector (validated top c e) h;
         EvLog INFO [Lit "starting http server on port "; Fmt port];
         EvLog CRITICAL (msg_server_failed port exc)]).
Proof.
  intros Hc He Hh Hi Hres Htok Hw Hcoll Hport Hint.
  apply (prom_client_connected w top c e hosts tok hs Hc He Hh Hi Hres Htok h);
    [exact Hw|].
  now apply (serve_int_failed w top c e h coll port Hcoll Hport).
Qed.

(** X11. When every step succeeds the order is: lookups, cluster
    connection, collector, HTTP server on [int(listen_port)], then the
    registration of the collector; after that the function never
    returns, so the process has no exit status. *)
Theorem successful_start_serves_forever (w : world) (top c e : dict)
    (hosts tok port : value) (hs : list value) (h : cluster_obj)
    (coll : collector) (n : Z) s :
  dict_get top "cluster" = Some (VDict c) ->
  dict_get top "exporter" = Some (VDict e) ->
  dict_get c "hosts" = Some hosts ->
  py_iter hosts = inr hs ->
  (forall x, In x hs -> gethostbyname w x = None) ->
  dict_get c "auth_token_file" = Some tok ->
  WekaCluster w (connect_args_of c e hosts tok) = inr h ->
  Collector w (validated top c e) h = inr coll ->
  dict_get e "listen_port" = Some port ->
  py_int w port = inr n ->
  start_http_server w n = None ->
  registry_register w coll = None ->
  prom_client w (VDict top) s
  = (Forever, s,
     map EvGetHostByName hs
     ++ [EvLog INFO (msg_timeout (lookup_or e "timeout" (VInt 10)));
         EvWekaCluster (connect_args_of c e hosts tok);
         EvCollector (validated top c e) h;
         EvLog INFO [Lit "starting http server on port "; Fmt port];
         EvStartHttpServer n;
         EvRegister coll])
  /\ exit_status (res_of (prom_client w (VDict top) s)) = None.
Proof.
  intros Hc He Hh Hi Hres Htok Hw Hcoll Hport Hint Hstart Hreg.
  assert (Hrun : prom_client w (VDict top) s
    = (Forever, s,
       map EvGetHostByName hs
       ++ [EvLog INFO (msg_timeout (lookup_or e "timeout" (VInt 10)));
           EvWekaCluster (connect_args_of c e hosts tok);
           EvCollector (validated top c e) h;
           EvLog INFO [Lit "starting http server on port "; Fmt port];
           EvStartHttpServer n;
           EvRegister coll])).
  { apply (prom_client_connected w top c e hosts tok hs Hc He Hh Hi Hres Htok h);
      [exact Hw|].
    rewrite (serve_started w top c e h coll port Hcoll Hport n s Hint Hstart).
    now rewrite Hreg. }
  split; [exact Hrun|]. now rewrite Hrun.
Qed.

(** X12. An exception of the [Collector] constructor is caught by
    nobody: it leaves [prom_client] after the cluster connection was
    made and before the HTTP server is started. *)
Theorem collector_failure_propagates (w : world) (top c e : dict)
    (hosts tok : value) (hs : list value) (h : cluster_obj)
    (exc : exception) s :
  dict_get top "cluster" = Some (VDict c) ->
  dict_get top "exporter" = Some (VDict e) ->
  dict_get c "hosts" = Some hosts ->
  py_iter hosts = inr hs ->
  (forall x, In x hs -> gethostbyname w x = None) ->
  dict_get c "auth_token_file" = Some tok ->
  WekaCluster w (connect_args_of c e hosts tok) = inr h ->
  Collector w (validated top c e) h = inl exc ->
  prom_client w (VDict top) s
  = (Raise exc, s,
     map EvGetHostByName hs
     ++ [EvLog INFO (msg_timeout (lookup_or e "timeout" (VInt 10)));
         EvWekaCluster (connect_args_of c e hosts tok);
         EvCollector (validated top c e) h]).
Proof.
  intros Hc He Hh Hi Hres Htok Hw Hcoll.
  apply (prom_client_connected w top c e hosts tok hs Hc He Hh Hi Hres Htok h);
    [exact Hw|].
  now apply serve_collector_raises.
Qed.

(** X13. An exception of [REGISTRY.register] is caught by nobody
    either; by then the HTTP server is already running. *)
Theorem register_failure_propagates (w : world) (top c e : dict)
    (hosts tok port : value) (hs : list value) (h : cluster_obj)
    (coll : collector) (n : Z) (exc : exception) s :
  dict_get top "cluster" = Some (VDict c) ->
  dict_get top "exporter" = Some (VDict e) ->
  dict_get c "hosts" = Some hosts ->
  py_iter hosts = inr hs ->
  (forall x, In x hs -> gethostbyname w x = None) ->
  dict_get c "auth_token_file" = Some tok ->
  WekaCluster w (connect_args_of c e hosts tok) = inr h ->
  Collector w (validated top c e) h = inr coll ->
  dict_get e "listen_port" = Some port ->
  py_int w port = inr n ->
  start_http_server w n = None ->
  registry_register w coll = Some exc ->
  prom_client w (VDict top) s
  = (Raise exc, s,
     map EvGetHostByName hs
     ++ [EvLog INFO (msg_timeout (lookup_or e "timeout" (VInt 10)));
         EvWekaCluster (connect_args_of c e hosts tok);
         EvCollector (validated top c e) h;
         EvLog INFO [Lit "starting http server on port "; Fmt port];
         EvStartHttpServer n;
         EvRegister coll]).
Proof.
  intros Hc He Hh Hi Hres Htok Hw Hcoll Hport Hint Hstart Hreg.
  apply (prom_client_connected w top c e hosts tok hs Hc He Hh Hi Hres Htok h);
    [exact Hw|].
  rewrite (serve_started w top c e h coll port Hcoll Hport n s Hint Hstart).
  now rewrite Hreg.
Qed.

(** ** Logging set-up *)

Lemma settings_for_lt_2 v :
  v < 2 ->
  settings_for v
  = {| loglevel := INFO;
       libloglevel := if v =? 1 then INFO else ERROR;
       console_format := if v =? 1 then fmt_level else fmt_message;
       syslog_format := fmt_process |}.
Proof.
  intros Hv. unfold settings_for.
  destruct (v =? 1) eqn:E1; [reflexivity|].
  destruct (v =? 2) eqn:E2; [lia|].
  destruct (v >? 2) eqn:E3; [lia|reflexivity].
Qed.

Lemma syslog_format_fixed v : syslog_format (settings_for v) = fmt_process.
Proof.
  unfold settings_for.
  now destruct (v =? 1), (v =? 2), (v >? 2).
Qed.

(** The first [String.length k] characters of [p] are [k] exactly when
    [k] is a prefix of [p]. *)
Lemma substring_eqb_prefix k : forall p,
  String.eqb (substring 0 (String.length k) p) k = String.prefix k p.
Proof.
  induction k as [|a k IH]; intros p.
  - now destruct p.
  - destruct p as [|b p]; [reflexivity|].
    cbn [String.length substring String.eqb String.prefix].
    rewrite IH. destruct (Ascii.ascii_dec a b) as [->|Hne].
    + now rewrite Ascii.eqb_refl.
    + destruct (Ascii.eqb b a) eqn:E; [|reflexivity].
      apply Ascii.eqb_eq in E. congruence.
Qed.

Lemma syslogaddr_prefix w :
  syslogaddr w
  = if String.prefix "macOS" (platform_platform w)
    then "/var/run/syslog" else "/dev/log".
Proof.
  unfold syslogaddr.
  now rewrite <- (substring_eqb_prefix "macOS" (platform_platform w)).
Qed.

(** What is left when the syslog socket cannot be opened: the console
    handler was added, no level was set. *)
Lemma configure_logging_syslog_fails w v s exc :
  SysLogHandler_init w (syslogaddr w) = Some exc ->
  configure_logging w v false s
  = (Raise exc,
     {| root_level := root_level s;
        root_handlers :=
          root_handlers s ++ [StreamHandler (console_format (settings_for v))];
        logger_levels := logger_levels s |},
     [EvLog INFO [Lit "setting syslog on "; Fmt (VStr (platform_platform w))];
      EvSysLogHandler (syslogaddr w)]).
Proof.
  intros Hsys. unfold configure_logging, attach_syslog, bind, lift_call.
  rewrite Hsys. reflexivity.
Qed.

(** X14. Below verbosity 2 (none, one [-v], or a negative count) the
    root logger is at INFO; only verbosity 1 prefixes the level to
    console lines and raises the library loggers to INFO, every other
    such verbosity keeps the bare message format and ERROR. *)
Theorem verbosity_below_2_levels (w : world) (v : Z) (disable_syslog : bool) s :
  v < 2 ->
  (disable_syslog = false -> SysLogHandler_init w (syslogaddr w) = None) ->
  let s' := state_of (configure_logging w v disable_syslog s) in
  root_level s' = INFO
  /\ root_handlers s'
     = root_handlers s
       ++ StreamHandler (if v =? 1 then fmt_level else fmt_message)
       :: (if disable_syslog then []
           else [SysLogHandler (syslogaddr w) fmt_process])
  /\ logger_levels s' !! "wekalib.wekaapi"
     = Some (if v =? 1 then INFO else ERROR)
  /\ logger_levels s' !! "wekalib.wekacluster"
     = Some (if v =? 1 then INFO else ERROR).
Proof.
  intros Hv Hsys s'. unfold s'.
  rewrite (configure_logging_run w v disable_syslog s Hsys).
  unfold state_of, configured. cbn [fst snd].
  rewrite (settings_for_lt_2 v Hv).
  cbn [root_level root_handlers logger_levels loglevel libloglevel
       console_format syslog_format].
  repeat split;
    repeat (rewrite lookup_insert_ne by discriminate);
    now rewrite lookup_insert_eq.
Qed.

(** X15. Whatever the verbosity, the loggers [wekalib],
    [wekalib.sthreads] and [urllib3] end at ERROR, and the [collector]
    logger at the level of the root logger. *)
Theorem pinned_loggers (w : world) (v : Z) (disable_syslog : bool) s :
  (disable_syslog = false -> SysLogHandler_init w (syslogaddr w) = None) ->
  let s' := state_of (configure_logging w v disable_syslog s) in
  logger_levels s' !! "wekalib" = Some ERROR
  /\ logger_levels s' !! "wekalib.sthreads" = Some ERROR
  /\ logger_levels s' !! "urllib3" = Some ERROR
  /\ logger_levels s' !! "collector" = Some (root_level s').
Proof.
  intros Hsys s'. unfold s'.
  rewrite (configure_logging_run w v disable_syslog s Hsys).
  unfold state_of, configured. cbn [fst snd root_level logger_levels].
  repeat split;
    repeat (rewrite lookup_insert_ne by discriminate);
    now rewrite lookup_insert_eq.
Qed.

(** X16. With syslog disabled the set-up always completes and touches
    nothing outside the logging state: no [SysLogHandler] is built, no
    record is logged, and the console handler is the only one added. *)
Theorem disabled_syslog_adds_console_only (w : world) (v : Z) s :
  res_of (configure_logging w v true s) = Ret tt
  /\ trace_of (configure_logging w v true s) = []
  /\ root_handlers (state_of (configure_logging w v true s))
     = root_handlers s ++ [StreamHandler (console_format (settings_for v))].
Proof.
  rewrite (configure_logging_run w v true s) by discriminate.
  repeat split.
Qed.

(** X17. The syslog handler goes to [/var/run/syslog] when the platform
    string starts with [macOS] and to [/dev/log] otherwise (also for a
    platform string shorter than five characters), and its format is
    the same at every verbosity. *)
Theorem syslog_handler_by_platform (w : world) (v : Z) s :
  SysLogHandler_init w (syslogaddr w) = None ->
  let addr := if String.prefix "macOS" (platform_platform w)
              then "/var/run/syslog" else "/dev/log" in
  root_handlers (state_of (configure_logging w v false s))
  = root_handlers s
    ++ [StreamHandler (console_format (settings_for v));
        SysLogHandler addr fmt_process]
  /\ In (EvSysLogHandler addr) (trace_of (configure_logging w v false s)).
Proof.
  intros Hsys addr. unfold addr. rewrite <- syslogaddr_prefix.
  rewrite (configure_logging_run w v false s (fun _ => Hsys)).
  unfold state_of, trace_of, configured, syslog_events.
  cbn [fst snd root_handlers]. rewrite syslog_format_fixed.
  split; [reflexivity|]. right. now left.
Qed.

(** ** Loading the configuration file *)

(** X18. When [open] raises, the loader re-raises that exception at
    once: the YAML library is not called and nothing is logged. *)
Theorem loader_open_failure (w : world) (path : string) (exc : exception) s :
  open_file w path = inl exc ->
  _load_config w path s = (Raise exc, s, [EvOpen path]).
Proof.
  intros Hopen. unfold _load_config. apply run_bind_emit.
  apply run_bind_raise. now rewrite Hopen.
Qed.

(** X19. When the first [yaml.load] raises [AttributeError], the loader
    calls [yaml.load(f)] a second time and its outcome is the loader's:
    a value is returned, an exception propagates, and in neither case is
    the error of line 35 logged. *)
Theorem loader_fallback (w : world) (path f : string) s :
  open_file w path = inr f ->
  yaml_load_FullLoader w f = inl AttributeError ->
  _load_config w path s
  = (as_result (yaml_load_default w f), s,
     [EvOpen path; EvYamlLoad true; EvYamlLoad false]).
Proof.
  intros Hopen Hyaml. unfold _load_config. apply run_bind_emit.
  rewrite (run_bind_pure _ _ s f) by now rewrite Hopen.
  apply run_bind_emit. rewrite Hyaml. apply run_bind_emit.
  now destruct (yaml_load_default w f).
Qed.

(** ** The entry point *)

Section MainMore.

Variable w : world.
Variable a : args.

Hypothesis Hversion : version a = false.
Hypothesis Hsyslog :
  no_syslog a = false -> SysLogHandler_init w (syslogaddr w) = None.
Hypothesis Hexists : path_exists w (configfile a) = true.

Local Abbreviation s1 s := (configured w (verbosity a) (no_syslog a) s).

(** Lines 207-215 with a file that loads. *)
Lemma main_loaded config s r s2 t :
  load_outcome w (configfile a) = inr config ->
  prom_client w config (s1 s) = (r, s2, t) ->
  main w a s
  = (discard r, s2,
     EvSignalHandling
     :: syslog_events w (no_syslog a)
     ++ EvPathExists (configfile a)
     :: EvLog DEBUG [Lit "loading config file"]
     :: trace_of (_load_config w (configfile a) (s1 s))
     ++ EvLog DEBUG [Lit "config file loaded"] :: t).
Proof.
  intros Hload Hrun. unfold main.
  apply (main_reaches_exists_check w a Hversion Hsyslog).
  rewrite Hexists. cbn [negb]. apply run_bind_log.
  eapply run_bind.
  - apply run_attempt_ret. rewrite _load_config_run, Hload. reflexivity.
  - cbv beta iota. apply run_bind_log.
    destruct r as [v|exc|n|]; cbn [discard].
    + rewrite <- (app_nil_r t). eapply run_bind; [exact Hrun|reflexivity].
    + now apply run_bind_raise.
    + now apply run_bind_exit.
    + now apply run_bind_forever.
Qed.

End MainMore.

(** X20. When the config file does not exist, [main] logs the critical
    message of line 204 and ends in [sys.exit(1)] without trying to open
    the file; logging was configured before the check. *)
Theorem missing_config_file_exits_1 (w : world) (a : args) s :
  version a = false ->
  (no_syslog a = false -> SysLogHandler_init w (syslogaddr w) = None) ->
  path_exists w (configfile a) = false ->
  main w a s
  = (Exit 1, configured w (verbosity a) (no_syslog a) s,
     EvSignalHandling
     :: syslog_events w (no_syslog a)
     ++ [EvPathExists (configfile a);
         EvLog CRITICAL (msg_no_configfile (configfile a))])
  /\ (forall p, ~ In (EvOpen p) (trace_of (main w a s))).
Proof.
  intros Hv Hsys Hex.
  rewrite (main_missing_file w a Hv Hsys s Hex).
  split; [reflexivity|].
  intros p Hin. unfold trace_of in Hin. cbn [snd] in Hin.
  destruct Hin as [Hin|Hin]; [discriminate|].
  apply in_app_or in Hin as [Hin|Hin].
  - unfold syslog_events in Hin. destruct (no_syslog a); simpl in Hin;
      intuition discriminate.
  - simpl in Hin. intuition discriminate.
Qed.

(** X21. Once the file is loaded, [main] ends the way [prom_client]
    ends on the loaded configuration, except that a returned value is
    dropped: whenever [prom_client] returns, [None] or 1, the process
    exits with status 0. *)
Theorem main_passes_on_prom_client (w : world) (a : args) (config : value) s :
  version a = false ->
  (no_syslog a = false -> SysLogHandler_init w (syslogaddr w) = None) ->
  path_exists w (configfile a) = true ->
  load_outcome w (configfile a) = inr config ->
  let run := prom_client w config (configured w (verbosity a) (no_syslog a) s) in
  res_of (main w a s) = discard (res_of run)
  /\ state_of (main w a s) = state_of run
  /\ (forall v, res_of run = Ret v ->
        exit_status (res_of (main w a s)) = Some 0).
Proof.
  intros Hv Hsys Hex Hload run. unfold run.
  destruct (prom_client w config (configured w (verbosity a) (no_syslog a) s))
    as [[r s2] t] eqn:Hrun.
  rewrite (main_loaded w a Hv Hsys Hex config s r s2 t Hload Hrun).
  unfold res_of, state_of. cbn [fst snd].
  repeat split. intros v ->. reflexivity.
Qed.

(** X22. An HTTP server that cannot start does not make the process
    fail: [prom_client] returns 1, [main] drops it, and the exit status
    is 0, with the critical message of line 119 as the only sign. *)
Theorem server_start_failure_exits_0 (w : world) (a : args) (top c e : dict)
    (hosts tok port : value) (hs : list value) (h : cluster_obj)
    (coll : collector) (n : Z) (exc : exception) s :
  version a = false ->
  (no_syslog a = false -> SysLogHandler_init w (syslogaddr w) = None) ->
  path_exists w (configfile a) = true ->
  load_outcome w (configfile a) = inr (VDict top) ->
  dict_get top "cluster" = Some (VDict c) ->
  dict_get top "exporter" = Some (VDict e) ->
  dict_get c "hosts" = Some hosts ->
  py_iter hosts = inr hs ->
  (forall x, In x hs -> gethostbyname w x = None) ->
  dict_get c "auth_token_file" = Some tok ->
  WekaCluster w (connect_args_of c e hosts tok) = inr h ->
  Collector w (validated top c e) h = inr coll ->
  dict_get e "listen_port" = Some port ->
  py_int w port = inr n ->
  start_http_server w n = Some exc ->
  res_of (main w a s) = Ret tt
  /\ exit_status (res_of (main w a s)) = Some 0
  /\ In (EvLog CRITICAL (msg_server_failed port exc)) (trace_of (main w a s)).
Proof.
  intros Hv Hsys Hex Hload Hc He Hh Hi Hres Htok Hw Hcoll Hport Hint Hstart.
  erewrite (main_loaded w a Hv Hsys Hex (VDict top) s); [|exact Hload|].
  2:{ apply (prom_client_connected w top c e hosts tok hs
               Hc He Hh Hi Hres Htok h); [exact Hw|].
      now apply (serve_start_failed w top c e h coll Hcoll port n exc). }
  unfold res_of, trace_of. cbn [fst snd discard exit_status].
  split; [reflexivity|]. split; [reflexivity|].
  right. apply in_or_app. right. do 2 right. apply in_or_app. right. right.
  apply in_or_app. right. simpl. auto 10.
Qed.

(** X23. A syslog socket that cannot be opened is fatal when syslog is
    not disabled: the exception of the handler's constructor leaves
    [main] before the config file is even looked for, with the console
    handler added and no level set. *)
Theorem syslog_failure_is_fatal (w : world) (a : args) (exc : exception) s :
  version a = false ->
  no_syslog a = false ->
  SysLogHandler_init w (syslogaddr w) = Some exc ->
  main w a s
  = (Raise exc,
     {| root_level := root_level s;
        root_handlers :=
          root_handlers s
          ++ [StreamHandler (console_format (settings_for (verbosity a)))];
        logger_levels := logger_levels s |},
     [EvSignalHandling;
      EvLog INFO [Lit "setting syslog on "; Fmt (VStr (platform_platform w))];
      EvSysLogHandler (syslogaddr w)])
  /\ exit_status (res_of (main w a s)) = Some 1.
Proof.
  intros Hv Hns Hsys.
  assert (Hrun : main w a s
    = (Raise exc,
       {| root_level := root_level s;
          root_handlers :=
            root_handlers s
            ++ [StreamHandler (console_format (settings_for (verbosity a)))];
          logger_levels := logger_levels s |},
       [EvSignalHandling;
        EvLog INFO [Lit "setting syslog on "; Fmt (VStr (platform_platform w))];
        EvSysLogHandler (syslogaddr w)])).
  { unfold main. apply run_bind_emit. rewrite Hv, Hns.
    apply run_bind_raise. now apply configure_logging_syslog_fails. }
  split; [exact Hrun|]. now rewrite Hrun.
Qed.

(** ** Concrete runs of the further properties *)

Lemma missing_exporter_witness :
  prom_client quiet_world (VDict cluster_only_config) logging_init
  = (Exit 1, logging_init,
     map EvGetHostByName example_hosts ++ [EvLog ERROR msg_exporter_missing]).
Proof.
  exact (missing_exporter_exits_1 quiet_world cluster_only_config
           example_cluster (VList example_hosts) example_hosts logging_init
           eq_refl eq_refl eq_refl (fun _ _ => eq_refl) eq_refl).
Defined.

Lemma complete_configuration_witness :
  preflight quiet_world (VDict complete_config) logging_init
  = (Ret (VDict complete_config), logging_init,
     map EvGetHostByName example_hosts).
Proof.
  exact (validation_keeps_complete_configuration quiet_world complete_config
           complete_cluster complete_exporter (VList example_hosts)
           example_hosts logging_init
           eq_refl eq_refl eq_refl eq_refl (fun _ _ => eq_refl)
           eq_refl eq_refl).
Defined.

Lemma validation_idempotent_witness :
  exists config',
    preflight quiet_world (VDict example_config) logging_init
    = (Ret config', logging_init, map EvGetHostByName example_hosts)
    /\ preflight quiet_world config' logging_init
       = (Ret config', logging_init, map EvGetHostByName example_hosts).
Proof.
  exact (validation_idempotent quiet_world example_config example_cluster
           example_exporter (VList example_hosts) example_hosts logging_init
           eq_refl eq_refl eq_refl eq_refl (fun _ _ => eq_refl)).
Defined.

Lemma string_hosts_witness :
  resolved_hosts
    (trace_of (preflight quiet_world (VDict string_hosts_config) logging_init))
  = [VStr "w"; VStr "1"].
Proof.
  exact (string_hosts_resolved_by_character quiet_world string_hosts_config
           [("hosts", VStr "w1")] "w1" logging_init eq_refl eq_refl).
Defined.

Lemma validation_only_resolves_witness :
  is_lookup_or_log (EvGetHostByName (VStr "weka01")) = true.
Proof.
  exact (validation_only_resolves quiet_world (VDict example_config)
           logging_init (EvGetHostByName (VStr "weka01"))
           (or_introl eq_refl)).
Defined.

Lemma empty_hosts_witness :
  preflight quiet_world (VDict no_hosts_config) logging_init
  = (Ret (validated no_hosts_config no_hosts_cluster example_exporter),
     logging_init, []).
Proof.
  exact (proj1 (empty_hosts_accepted quiet_world no_hosts_config
                  no_hosts_cluster example_exporter example_token
                  logging_init eq_refl eq_refl eq_refl eq_refl)).
Defined.

Lemma missing_auth_token_file_witness :
  prom_client quiet_world (VDict no_token_config) logging_init
  = (Ret None, logging_init,
     map EvGetHostByName example_hosts
     ++ [EvLog INFO (msg_timeout (lookup_or example_exporter "timeout" (VInt 10)));
         EvLog CRITICAL [Lit "Unable to create Weka Cluster: ";
                         FmtExc (KeyError "auth_token_file")];
         EvLog CRITICAL [FmtTraceback]]).
Proof.
  exact (missing_auth_token_file_is_caught quiet_world no_token_config
           no_token_cluster example_exporter (VList example_hosts)
           example_hosts logging_init
           eq_refl eq_refl eq_refl eq_refl (fun _ _ => eq_refl) eq_refl).
Defined.

Lemma connect_failure_witness :
  res_of (prom_client
            (example_world all_resolve (inr VNone) (inl server_error) None)
            (VDict example_config) logging_init)
  = Ret None.
Proof.
  exact (proj1 (connect_failure_stops_startup
                  (example_world all_resolve (inr VNone) (inl server_error) None)
                  example_config example_cluster example_exporter
                  (VList example_hosts) example_token example_hosts
                  server_error logging_init
                  eq_refl eq_refl eq_refl eq_refl (fun _ _ => eq_refl)
                  eq_refl eq_refl)).
Defined.

Lemma http_error_witness :
  prom_client
    (example_world all_resolve (inr VNone) (inl server_error) None)
    (VDict example_config) logging_init
  = (Ret None, logging_init,
     map EvGetHostByName example_hosts
     ++ [EvLog INFO (msg_timeout (lookup_or example_exporter "timeout" (VInt 10)));
         EvWekaCluster (connect_args_of example_cluster example_exporter
                          (VList example_hosts) example_token);
         EvLog CRITICAL [Lit "Cluster returned HTTP error ";
                         FmtExc (HTTPError 500 "Internal Server Error");
                         Lit "; aborting"]]).
Proof.
  refine (http_error_other_than_403
            (example_world all_resolve (inr VNone) (inl server_error) None)
            example_config example_cluster example_exporter
            (VList example_hosts) example_token example_hosts
            500 "Internal Server Error" logging_init
            eq_refl eq_refl eq_refl eq_refl (fun _ _ => eq_refl)
            eq_refl eq_refl _).
  lia.
Defined.

Lemma bad_listen_port_witness :
  res_of (prom_client quiet_world (VDict bad_port_config) logging_init)
  = Ret (Some 1).
Proof.
  rewrite (bad_listen_port_returns_1 quiet_world bad_port_config
             example_cluster bad_port_exporter (VList example_hosts)
             example_token (VStr "http") example_hosts 3%nat 7%nat ValueError
             logging_init
             eq_refl eq_refl eq_refl eq_refl (fun _ _ => eq_refl)
             eq_refl eq_refl eq_refl eq_refl eq_refl).
  reflexivity.
Defined.

Lemma successful_start_witness :
  exit_status
    (res_of (prom_client quiet_world (VDict example_config) logging_init))
  = None.
Proof.
  exact (proj2 (successful_start_serves_forever quiet_world example_config
                  example_cluster example_exporter (VList example_hosts)
                  example_token (VInt 8101) example_hosts 3%nat 7%nat 8101
                  logging_init
                  eq_refl eq_refl eq_refl eq_refl (fun _ _ => eq_refl)
                  eq_refl eq_refl eq_refl eq_refl eq_refl eq_refl eq_refl)).
Defined.

Lemma collector_failure_witness :
  res_of (prom_client
            (with_Collector (fun _ _ => inl collector_error) quiet_world)
            (VDict example_config) logging_init)
  = Raise collector_error.
Proof.
  rewrite (collector_failure_propagates
             (with_Collector (fun _ _ => inl collector_error) quiet_world)
             example_config example_cluster example_exporter
             (VList example_hosts) example_token example_hosts 3%nat
             collector_error logging_init
             eq_refl eq_refl eq_refl eq_refl (fun _ _ => eq_refl)
             eq_refl eq_refl eq_refl).
  reflexivity.
Defined.

Lemma register_failure_witness :
  res_of (prom_client
            (with_register (fun _ => Some duplicate_metric) quiet_world)
            (VDict example_config) logging_init)
  = Raise duplicate_metric.
Proof.
  rewrite (register_failure_propagates
             (with_register (fun _ => Some duplicate_metric) quiet_world)
             example_config example_cluster example_exporter
             (VList example_hosts) example_token (VInt 8101) example_hosts
             3%nat 7%nat 8101 duplicate_metric logging_init
             eq_refl eq_refl eq_refl eq_refl (fun _ _ => eq_refl)
             eq_refl eq_refl eq_refl eq_refl eq_refl eq_refl eq_refl).
  reflexivity.
Defined.

Lemma verbosity_below_2_witness :
  root_level
    (state_of (configure_logging quiet_world 0 false logging_init)) = INFO.
Proof.
  refine (proj1 (verbosity_below_2_levels quiet_world 0 false logging_init
                   _ (fun _ => eq_refl))).
  lia.
Defined.

Lemma pinned_loggers_witness :
  logger_levels
    (state_of (configure_logging quiet_world 3 false logging_init))
  !! "urllib3" = Some ERROR.
Proof.
  exact (proj1 (proj2 (proj2 (pinned_loggers quiet_world 3 false logging_init
                                (fun _ => eq_refl))))).
Defined.

Lemma syslog_handler_witness :
  In (EvSysLogHandler "/dev/log")
    (trace_of (configure_logging quiet_world 1 false logging_init))
  /\ In (EvSysLogHandler "/var/run/syslog")
       (trace_of (configure_logging
                    (with_syslog "macOS-14.4-arm64-arm-64bit" (fun _ => None)
                       quiet_world)
                    1 false logging_init)).
Proof.
  split.
  - exact (proj2 (syslog_handler_by_platform quiet_world 1 logging_init eq_refl)).
  - exact (proj2 (syslog_handler_by_platform
                    (with_syslog "macOS-14.4-arm64-arm-64bit" (fun _ => None)
                       quiet_world)
                    1 logging_init eq_refl)).
Defined.

Lemma loader_open_failure_witness :
  _load_config
    (with_files (fun _ => true) (fun _ => inl permission_denied) quiet_world)
    "./quota-export.yml" logging_init
  = (Raise permission_denied, logging_init, [EvOpen "./quota-export.yml"]).
Proof.
  exact (loader_open_failure
           (with_files (fun _ => true) (fun _ => inl permission_denied)
              quiet_world)
           "./quota-export.yml" permission_denied logging_init eq_refl).
Defined.

Lemma loader_fallback_witness :
  _load_config
    (with_yaml (fun _ => inl AttributeError)
       (fun _ => inl yaml_scanner_error) quiet_world)
    "./quota-export.yml" logging_init
  = (Raise yaml_scanner_error, logging_init,
     [EvOpen "./quota-export.yml"; EvYamlLoad true; EvYamlLoad false]).
Proof.
  exact (loader_fallback
           (with_yaml (fun _ => inl AttributeError)
              (fun _ => inl yaml_scanner_error) quiet_world)
           "./quota-export.yml" "cluster: ..." logging_init eq_refl eq_refl).
Defined.

Lemma missing_config_file_witness :
  res_of (main (with_files (fun _ => false) (fun _ => inl no_such_file)
                  quiet_world)
            (example_args 0 false) logging_init)
  = Exit 1.
Proof.
  rewrite (proj1 (missing_config_file_exits_1
                    (with_files (fun _ => false) (fun _ => inl no_such_file)
                       quiet_world)
                    (example_args 0 false) logging_init
                    eq_refl (fun _ => eq_refl) eq_refl)).
  reflexivity.
Defined.

Lemma main_passes_on_witness :
  res_of (main quiet_world (example_args 0 false) logging_init)
  = discard
      (res_of (prom_client quiet_world (VDict example_config)
                 (configured quiet_world 0 false logging_init))).
Proof.
  exact (proj1 (main_passes_on_prom_client quiet_world (example_args 0 false)
                  (VDict example_config) logging_init
                  eq_refl (fun _ => eq_refl) eq_refl eq_refl)).
Defined.

Lemma server_start_failure_exit_witness :
  exit_status
    (res_of (main (example_world all_resolve (inr (VDict example_config))
                     (inr 3%nat) (Some port_in_use))
               (example_args 0 false) logging_init))
  = Some 0.
Proof.
  exact (proj1 (proj2 (server_start_failure_exits_0
           (example_world all_resolve (inr (VDict example_config))
              (inr 3%nat) (Some port_in_use))
           (example_args 0 false) example_config example_cluster
           example_exporter (VList example_hosts) example_token (VInt 8101)
           example_hosts 3%nat 7%nat 8101 port_in_use logging_init
           eq_refl (fun _ => eq_refl) eq_refl eq_refl
           eq_refl eq_refl eq_refl eq_refl (fun _ _ => eq_refl)
           eq_refl eq_refl eq_refl eq_refl eq_refl eq_refl))).
Defined.

Lemma syslog_failure_witness :
  exit_status
    (res_of (main (with_syslog "Linux-6.1.0-x86_64-with-glibc2.36"
                     (fun _ => Some no_such_file) quiet_world)
               (example_args 0 false) logging_init))
  = Some 1.
Proof.
  exact (proj2 (syslog_failure_is_fatal
                  (with_syslog "Linux-6.1.0-x86_64-with-glibc2.36"
                     (fun _ => Some no_such_file) quiet_world)
                  (example_args 0 false) no_such_file logging_init
                  eq_refl eq_refl eq_refl)).
Defined.
